(** * Coupon service (main.py): shallow embedding and verified properties

    The service keeps one module-level dictionary [coupons], reads the wall
    clock through [now_utc] and signals failures with [HTTPException].  The
    embedding keeps that shape: the handlers are computations in a small
    state-and-exception monad over a [World] that holds the dictionary, the
    wall clock and the identifier source.

    Numbers.  Python [int] is [Z].  Python [float] is idealised as an exact
    rational [Q]: overflow, NaN and binary rounding error are outside the
    model, comparisons and [min] are the exact ones, and [round(x, 2)] is
    rounding to the nearest hundredth with ties to even.  A [datetime] is the
    instant it denotes, a [Z] (microseconds since the epoch, UTC).  Strings
    are byte strings; [strip] and [upper] are given on the ASCII range. *)

From Stdlib Require Import ZArith QArith Qminmax Qround Lqa Lia.
From Stdlib Require Import String Ascii List OrderedTypeEx.
From stdpp Require Import gmap strings.

Local Open Scope Z_scope.
Local Set Warnings "-register-all".

(** ** Python primitives used by main.py *)

Module Py.

(** [a < b] and [a <= b] on floats. *)
Definition Qltb (a b : Q) : bool := negb (Qle_bool b a).
Definition Qleb (a b : Q) : bool := Qle_bool a b.

(** [min(a, b)]: the first argument unless the second is strictly smaller. *)
Definition min (a b : Q) : Q := if Qltb b a then b else a.

(** [x or 0] on an optional number. *)
Definition or0Q (x : option Q) : Q := match x with Some q => q | None => 0%Q end.
Definition or0Z (x : option Z) : Z := match x with Some z => z | None => 0 end.

(** Truth value of an optional list: [None] and [[]] are both falsy. *)
Definition truthy_list {A} (x : option (list A)) : bool :=
  match x with
  | Some (_ :: _) => true
  | _ => false
  end.

(** Truth value of an optional bool. *)
Definition truthy_bool (x : option bool) : bool :=
  match x with Some true => true | _ => false end.

(** [x in l] for an optional string [x] and a list of strings: [None] is
    never an element of a [List[str]]. *)
Definition contains (l : list string) (x : option string) : bool :=
  match x with
  | None => false
  | Some s => existsb (String.eqb s) l
  end.

(** Nearest integer, ties to even. *)
Definition round_half_even (q : Q) : Z :=
  let f := Qfloor q in
  match Qcompare (q - inject_Z f) (1 # 2) with
  | Lt => f
  | Gt => f + 1
  | Eq => if Z.even f then f else f + 1
  end.

(** [round(x, 2)]. *)
Definition round2 (q : Q) : Q := Qmake (round_half_even (q * 100)) 100.

(** [str.isspace] on one ASCII character. *)
Definition is_space (a : ascii) : bool :=
  let n := nat_of_ascii a in
  (((9 <=? n) && (n <=? 13)) || ((28 <=? n) && (n <=? 32)))%nat.

Fixpoint lstrip (s : string) : string :=
  match s with
  | String a s' => if is_space a then lstrip s' else s
  | EmptyString => EmptyString
  end.

Fixpoint rstrip (s : string) : string :=
  match s with
  | String a s' =>
      match rstrip s' with
      | EmptyString => if is_space a then EmptyString else String a EmptyString
      | t => String a t
      end
  | EmptyString => EmptyString
  end.

(** [s.strip()] *)
Definition strip (s : string) : string := rstrip (lstrip s).

Definition upper_ascii (a : ascii) : ascii :=
  let n := nat_of_ascii a in
  if ((97 <=? n) && (n <=? 122))%nat then ascii_of_nat (n - 32) else a.

(** [s.upper()] *)
Fixpoint upper (s : string) : string :=
  match s with
  | String a s' => String (upper_ascii a) (upper s')
  | EmptyString => EmptyString
  end.

(** [s1 < s2] on strings: lexicographic on code points. *)
Definition str_ltb (s1 s2 : string) : bool := String.ltb s1 s2.

End Py.

(** ** Models *)

Inductive DiscountType := FLAT | PERCENT.

Record Eligibility := mkEligibility {
  allowedUserTiers : option (list string);
  minLifetimeSpend : option Q;
  minOrdersPlaced : option Z;
  firstOrderOnly : option bool;
  allowedCountries : option (list string);
  minCartValue : option Q;
  applicableCategories : option (list string);
  excludedCategories : option (list string);
  minItemsCount : option Z
}.

Record CouponIn := mkCouponIn {
  code : string;
  description : option string;
  discountType : DiscountType;
  discountValue : Q;
  maxDiscountAmount : option Q;
  startDate : Z;
  endDate : Z;
  usageLimitPerUser : option Z;
  eligibility : option Eligibility
}.

(** [CouponStored] extends [CouponIn]; [usage_count] maps a userId to the
    number of redemptions. *)
Record CouponStored := mkCouponStored {
  base :> CouponIn;
  id : string;
  usage_count : gmap string Z
}.

Record UserContext := mkUserContext {
  userId : string;
  userTier : option string;
  country : option string;
  lifetimeSpend : option Q;
  ordersPlaced : option Z
}.

Record CartItem := mkCartItem {
  productId : string;
  category : string;
  unitPrice : Q;
  quantity : Z
}.

Record Cart := mkCart { items : list CartItem }.

Record BestCouponRequest := mkRequest { user : UserContext; cart : Cart }.

(** ** Helpers *)

(** [sum(item.unitPrice * item.quantity for item in cart.items)] *)
Definition compute_cart_value (cart : Cart) : Q :=
  fold_left (fun acc item => (acc + unitPrice item * inject_Z (quantity item))%Q)
            (items cart) 0%Q.

Definition total_items_count (cart : Cart) : Z :=
  fold_left (fun acc item => acc + quantity item) (items cart) 0.

Definition categories_in_cart (cart : Cart) : list string :=
  map category (items cart).

(** The date test of [coupon_within_dates], on the instant [n] it read. *)
Definition within_dates (c : CouponStored) (n : Z) : bool :=
  (startDate c <=? n) && (n <=? endDate c).

Definition usage_within_limit (c : CouponStored) (userId : string) : bool :=
  match usageLimitPerUser c with
  | None => true
  | Some limit =>
      let used := default 0 (usage_count c !! userId) in
      used <? limit
  end.

(** Truth value of [a & b] for two sets of strings. *)
Definition intersects (a b : gset string) : bool := bool_decide (a ∩ b ≠ ∅).

Definition eligibility_satisfied (c : CouponStored) (user : UserContext) (cart : Cart) : bool :=
  match eligibility c with
  | None => true
  | Some e =>
      if Py.truthy_list (allowedUserTiers e)
         && negb (Py.contains (default [] (allowedUserTiers e)) (userTier user))
      then false else
      if match minLifetimeSpend e with
         | Some m => Py.Qltb (Py.or0Q (lifetimeSpend user)) m
         | None => false
         end
      then false else
      if match minOrdersPlaced e with
         | Some m => Py.or0Z (ordersPlaced user) <? m
         | None => false
         end
      then false else
      if Py.truthy_bool (firstOrderOnly e) && negb (Py.or0Z (ordersPlaced user) =? 0)
      then false else
      if Py.truthy_list (allowedCountries e)
         && negb (Py.contains (default [] (allowedCountries e)) (country user))
      then false else
      let cart_value := compute_cart_value cart in
      if match minCartValue e with
         | Some m => Py.Qltb cart_value m
         | None => false
         end
      then false else
      let cart_categories : gset string := list_to_set (categories_in_cart cart) in
      if Py.truthy_list (applicableCategories e)
         && negb (intersects cart_categories
                    (list_to_set (default [] (applicableCategories e))))
      then false else
      if Py.truthy_list (excludedCategories e)
         && intersects cart_categories
              (list_to_set (default [] (excludedCategories e)))
      then false else
      if match minItemsCount e with
         | Some m => total_items_count cart <? m
         | None => false
         end
      then false else
      true
  end.

Definition compute_discount_amount (c : CouponStored) (cart_value : Q) : Q :=
  match discountType c with
  | FLAT => Py.min cart_value (discountValue c)
  | PERCENT =>
      let raw := (discountValue c / 100 * cart_value)%Q in
      match maxDiscountAmount c with
      | Some m => Py.min raw m
      | None => raw
      end
  end.

(** ** Dictionaries in insertion order

    [coupons] is a Python [dict]: keys are unique, iteration follows insertion
    order, assignment to an existing key keeps the key's place. *)

Fixpoint dict_get {V} (k : string) (d : list (string * V)) : option V :=
  match d with
  | [] => None
  | (k', v) :: d' => if String.eqb k k' then Some v else dict_get k d'
  end.

Fixpoint dict_set {V} (k : string) (v : V) (d : list (string * V)) : list (string * V) :=
  match d with
  | [] => [(k, v)]
  | (k', v') :: d' =>
      if String.eqb k k' then (k', v) :: d' else (k', v') :: dict_set k v d'
  end.

(** [d.pop(k, None)], keeping only the dictionary. *)
Definition dict_pop {V} (k : string) (d : list (string * V)) : list (string * V) :=
  List.filter (fun kv => negb (String.eqb k (fst kv))) d.

Definition dict_contains {V} (k : string) (d : list (string * V)) : bool :=
  match dict_get k d with Some _ => true | None => false end.

(** ** JSON-like values: what [.dict()] and the handlers return *)

Inductive Value :=
| VNone
| VBool (b : bool)
| VInt (z : Z)
| VFloat (q : Q)
| VStr (s : string)
| VDatetime (t : Z)
| VList (l : list Value)
| VDict (d : list (string * Value)).

Definition opt_value {A} (f : A -> Value) (x : option A) : Value :=
  match x with Some a => f a | None => VNone end.

Definition str_list_value (l : list string) : Value := VList (map VStr l).

Definition DiscountType_value (t : DiscountType) : Value :=
  match t with FLAT => VStr "FLAT" | PERCENT => VStr "PERCENT" end.

Definition Eligibility_dict (e : Eligibility) : Value :=
  VDict [ ("allowedUserTiers", opt_value str_list_value (allowedUserTiers e));
          ("minLifetimeSpend", opt_value VFloat (minLifetimeSpend e));
          ("minOrdersPlaced", opt_value VInt (minOrdersPlaced e));
          ("firstOrderOnly", opt_value VBool (firstOrderOnly e));
          ("allowedCountries", opt_value str_list_value (allowedCountries e));
          ("minCartValue", opt_value VFloat (minCartValue e));
          ("applicableCategories", opt_value str_list_value (applicableCategories e));
          ("excludedCategories", opt_value str_list_value (excludedCategories e));
          ("minItemsCount", opt_value VInt (minItemsCount e)) ].

(** [coupon.dict()] for a [CouponIn]: the fields in declaration order. *)
Definition CouponIn_dict (c : CouponIn) : list (string * Value) :=
  [ ("code", VStr (code c));
    ("description", opt_value VStr (description c));
    ("discountType", DiscountType_value (discountType c));
    ("discountValue", VFloat (discountValue c));
    ("maxDiscountAmount", opt_value VFloat (maxDiscountAmount c));
    ("startDate", VDatetime (startDate c));
    ("endDate", VDatetime (endDate c));
    ("usageLimitPerUser", opt_value VInt (usageLimitPerUser c));
    ("eligibility", opt_value Eligibility_dict (eligibility c)) ].

(** [c.dict()] for a [CouponStored]: the inherited fields, then [id] and
    [usage_count]. *)
Definition CouponStored_dict (c : CouponStored) : list (string * Value) :=
  CouponIn_dict c ++
  [ ("id", VStr (id c));
    ("usage_count",
      VDict (map (fun kv => (fst kv, VInt (snd kv))) (map_to_list (usage_count c)))) ].

Record BestCouponResponse := mkBestCouponResponse {
  coupon : option (list (string * Value));
  discountAmount : option Q;
  reason : option string
}.

(** ** The world and the handler monad *)

(** [coupons] is the module-level store.  [wall_clock] gives the instant
    returned by the n-th call of [datetime.now]; [uuid_source] the n-th
    [uuid4()]. *)
Record World := mkWorld {
  coupons : list (string * CouponStored);
  wall_clock : nat -> Z;
  clock_reads : nat;
  uuid_source : nat -> string;
  uuid_draws : nat
}.

Inductive Exn :=
| HTTPException (status_code : Z) (detail : string)
| ValidationError (msg : string).

(** A computation either raises or returns; the world it leaves is the one
    reached when it stopped, so a mutation made before a [raise] stays. *)
Definition M (A : Type) : Type := World -> (Exn + A) * World.

#[export] Instance M_ret : MRet M := fun A a w => (inr a, w).

#[export] Instance M_bind : MBind M := fun A B k m w =>
  match m w with
  | (inl e, w') => (inl e, w')
  | (inr a, w') => k a w'
  end.

Definition raise {A} (e : Exn) : M A := fun w => (inl e, w).

Definition get_coupons : M (list (string * CouponStored)) :=
  fun w => (inr (coupons w), w).

Definition set_coupons (cs : list (string * CouponStored)) : M unit :=
  fun w => (inr tt, mkWorld cs (wall_clock w) (clock_reads w) (uuid_source w) (uuid_draws w)).

Definition now_utc : M Z :=
  fun w => (inr (wall_clock w (clock_reads w)),
            mkWorld (coupons w) (wall_clock w) (S (clock_reads w))
                    (uuid_source w) (uuid_draws w)).

Definition uuid4 : M string :=
  fun w => (inr (uuid_source w (uuid_draws w)),
            mkWorld (coupons w) (wall_clock w) (clock_reads w)
                    (uuid_source w) (S (uuid_draws w))).

Definition coupon_within_dates (c : CouponStored) : M bool :=
  n ← now_utc; mret (within_dates c n).

(** ** Validation of a [CouponIn] (pydantic) *)

(** The validator of [endDate]; [values] holds the fields validated before
    it, of which it reads [startDate]. *)
Definition end_after_start (v : Z) (values_startDate : option Z) : Exn + Z :=
  match values_startDate with
  | Some s =>
      if v <? s then inl (ValidationError "endDate must be >= startDate") else inr v
  | None => inr v
  end.

(** Construction of a [CouponIn] from its fields: [discountValue] has
    [gt=0], then [endDate] goes through its validator. *)
Definition CouponIn_validate (raw : CouponIn) : Exn + CouponIn :=
  if negb (Py.Qltb 0 (discountValue raw))
  then inl (ValidationError "discountValue must be greater than 0")
  else
    match end_after_start (endDate raw) (Some (startDate raw)) with
    | inl e => inl e
    | inr v =>
        inr (mkCouponIn (code raw) (description raw) (discountType raw)
               (discountValue raw) (maxDiscountAmount raw) (startDate raw) v
               (usageLimitPerUser raw) (eligibility raw))
    end.

(** ** Endpoints *)

Definition normalize (s : string) : string := Py.upper (Py.strip s).

Definition create_coupon (coupon : CouponIn) : M CouponStored :=
  let code' := normalize (code coupon) in
  cs ← get_coupons;
  if dict_contains code' cs
  then raise (HTTPException 400 ("Coupon code '" +:+ code' +:+ "' already exists."))
  else
    i ← uuid4;
    let stored := mkCouponStored coupon i ∅ in
    cs' ← get_coupons;
    _ ← set_coupons (dict_set code' stored cs');
    mret stored.

(** POST /coupons: the body is validated as a [CouponIn] before the handler
    runs. *)
Definition post_coupons (body : CouponIn) : M CouponStored :=
  match CouponIn_validate body with
  | inl e => raise e
  | inr c => create_coupon c
  end.

(** The key of [eligible_candidates.sort]: [(-discount, c.endDate, c.code)]. *)
Definition sort_key (pair : CouponStored * Q) : Q * Z * string :=
  let (c, discount) := pair in ((- discount)%Q, endDate c, code c).

(** [k1 < k2] on such tuples: the first position where they differ decides. *)
Definition key_ltb (k1 k2 : Q * Z * string) : bool :=
  let '(q1, z1, s1) := k1 in
  let '(q2, z2, s2) := k2 in
  if negb (Qeq_bool q1 q2) then Py.Qltb q1 q2
  else if negb (z1 =? z2) then z1 <? z2
  else Py.str_ltb s1 s2.

(** [list.sort(key=...)] is stable and compares keys with [<] only: an
    element moves in front of a later one only when its key is strictly
    smaller. *)
Fixpoint sort_insert (x : CouponStored * Q) (l : list (CouponStored * Q))
  : list (CouponStored * Q) :=
  match l with
  | [] => [x]
  | y :: l' =>
      if key_ltb (sort_key y) (sort_key x) then y :: sort_insert x l' else x :: l
  end.

Definition sort_candidates (l : list (CouponStored * Q)) : list (CouponStored * Q) :=
  fold_right sort_insert [] l.

(** The body of the [for code, c in coupons.items()] loop of [best_coupon]. *)
Fixpoint best_coupon_loop (user : UserContext) (cart : Cart) (cart_value : Q)
    (its : list (string * CouponStored))
    (eligible_candidates : list (CouponStored * Q)) : M (list (CouponStored * Q)) :=
  match its with
  | [] => mret eligible_candidates
  | (_, c) :: rest =>
      ok ← coupon_within_dates c;
      if negb ok then best_coupon_loop user cart cart_value rest eligible_candidates else
      if negb (usage_within_limit c (userId user))
      then best_coupon_loop user cart cart_value rest eligible_candidates else
      if negb (eligibility_satisfied c user cart)
      then best_coupon_loop user cart cart_value rest eligible_candidates else
      let discount := compute_discount_amount c cart_value in
      if Py.Qleb discount 0
      then best_coupon_loop user cart cart_value rest eligible_candidates
      else best_coupon_loop user cart cart_value rest
             (eligible_candidates ++ [(c, Py.round2 discount)])
  end.

Definition best_coupon (req : BestCouponRequest) : M BestCouponResponse :=
  let user := user req in
  let cart := cart req in
  let cart_value := compute_cart_value cart in
  now ← now_utc;
  cs ← get_coupons;
  eligible_candidates ← best_coupon_loop user cart cart_value cs [];
  match eligible_candidates with
  | [] => mret (mkBestCouponResponse None (Some 0%Q) (Some "No eligible coupons"))
  | first :: _ =>
      let (best_c, best_discount) := hd first (sort_candidates eligible_candidates) in
      let coupon_out := dict_pop "usage_count" (CouponStored_dict best_c) in
      mret (mkBestCouponResponse (Some coupon_out) (Some best_discount) (Some "OK"))
  end.

Definition redeem (code0 : string) (req : BestCouponRequest) : M Value :=
  let code' := normalize code0 in
  cs ← get_coupons;
  match dict_get code' cs with
  | None => raise (HTTPException 404 "Coupon not found")
  | Some c =>
      let user := user req in
      let cart := cart req in
      ok ← coupon_within_dates c;
      if negb ok
      then raise (HTTPException 400 "Coupon not valid right now (date window)") else
      if negb (usage_within_limit c (userId user))
      then raise (HTTPException 400 "Usage limit reached for this user") else
      if negb (eligibility_satisfied c user cart)
      then raise (HTTPException 400 "Eligibility criteria not satisfied") else
      let discount := compute_discount_amount c (compute_cart_value cart) in
      if Py.Qleb discount 0
      then raise (HTTPException 400 "Coupon yields zero discount for this cart") else
      let used := default 0 (usage_count c !! userId user) + 1 in
      cs' ← get_coupons;
      _ ← set_coupons
            (dict_set code'
               (mkCouponStored c (id c) (<[userId user := used]> (usage_count c))) cs');
      mret (VDict [ ("message", VStr "Redeemed");
                    ("coupon", VStr (code c));
                    ("discountAmount", VFloat (Py.round2 discount)) ])
  end.

(** ** Notions used to state the properties *)

(** The failures [redeem] raises, by the names the specification gives them. *)
Definition not_found : Exn := HTTPException 404 "Coupon not found".
Definition out_of_date_window : Exn :=
  HTTPException 400 "Coupon not valid right now (date window)".
Definition usage_limit_reached : Exn :=
  HTTPException 400 "Usage limit reached for this user".
Definition eligibility_not_satisfied : Exn :=
  HTTPException 400 "Eligibility criteria not satisfied".
Definition zero_discount : Exn :=
  HTTPException 400 "Coupon yields zero discount for this cart".

(** The body [redeem] returns on success. *)
Definition redeemed (c : CouponStored) (amount : Q) : Value :=
  VDict [ ("message", VStr "Redeemed");
          ("coupon", VStr (code c));
          ("discountAmount", VFloat amount) ].

(** Redemptions recorded for [uid] on the coupon stored under [k]. *)
Definition ledger_count (cs : list (string * CouponStored)) (k uid : string) : Z :=
  match dict_get k cs with
  | Some c => default 0 (usage_count c !! uid)
  | None => 0
  end.

(** The instant the next call of [now_utc] returns. *)
Definition next_instant (w : World) : Z := wall_clock w (clock_reads w).

(** The world after [n] more readings of the clock. *)
Definition advance_clock (n : nat) (w : World) : World :=
  mkWorld (coupons w) (wall_clock w) (n + clock_reads w) (uuid_source w) (uuid_draws w).

(** The world [redeem] leaves on success. *)
Definition after_redeem (k : string) (c : CouponStored) (uid : string) (w : World) : World :=
  mkWorld
    (dict_set k
       (mkCouponStored c (id c)
          (<[uid := default 0 (usage_count c !! uid) + 1]> (usage_count c)))
       (coupons w))
    (wall_clock w) (S (clock_reads w)) (uuid_source w) (uuid_draws w).

(** The four gates of [best_coupon] and [redeem] on one coupon, the clock
    having returned [now]. *)
Definition passes_gates (user : UserContext) (cart : Cart) (now : Z)
    (c : CouponStored) : bool :=
  within_dates c now
  && usage_within_limit c (userId user)
  && eligibility_satisfied c user cart
  && negb (Py.Qleb (compute_discount_amount c (compute_cart_value cart)) 0).

(** The candidates the loop of [best_coupon] collects from [its] when the
    n-th reading of the clock is [clock n] and the first coupon is checked
    at reading [n]. *)
Fixpoint surviving (user : UserContext) (cart : Cart) (clock : nat -> Z) (n : nat)
    (its : list (string * CouponStored)) : list (CouponStored * Q) :=
  match its with
  | [] => []
  | (_, c) :: rest =>
      (if passes_gates user cart (clock n) c
       then [(c, Py.round2 (compute_discount_amount c (compute_cart_value cart)))]
       else [])
      ++ surviving user cart clock (S n) rest
  end.

(** The response [best_coupon] builds from the collected candidates. *)
Definition best_response (eligible_candidates : list (CouponStored * Q)) : BestCouponResponse :=
  match eligible_candidates with
  | [] => mkBestCouponResponse None (Some 0%Q) (Some "No eligible coupons")
  | first :: _ =>
      let (best_c, best_discount) := hd first (sort_candidates eligible_candidates) in
      mkBestCouponResponse
        (Some (dict_pop "usage_count" (CouponStored_dict best_c)))
        (Some best_discount) (Some "OK")
  end.

(** The representation of a stored coupon without its ledger. *)
Definition public_dict (c : CouponStored) : list (string * Value) :=
  CouponIn_dict c ++ [ ("id", VStr (id c)) ].

(** The calculator as the specification words it. *)
Definition computeDiscount_spec (c : CouponStored) (cartValue : Q) : Q :=
  match discountType c with
  | FLAT => Qmin cartValue (discountValue c)
  | PERCENT =>
      let raw := ((discountValue c / 100) * cartValue)%Q in
      match maxDiscountAmount c with
      | Some maxDiscountAmount => Qmin raw maxDiscountAmount
      | None => raw
      end
  end.

(** Lexicographic order on strings. *)
Definition str_lt (s1 s2 : string) : Prop := String.compare s1 s2 = Lt.

(** [k1 < k2] on sort keys, as a proposition. *)
Definition key_lt (k1 k2 : Q * Z * string) : Prop :=
  let '(q1, z1, s1) := k1 in
  let '(q2, z2, s2) := k2 in
  (q1 < q2)%Q \/ ((q1 == q2)%Q /\ (z1 < z2 \/ (z1 = z2 /\ str_lt s1 s2))).

(** Keys that compare equal. *)
Definition key_eqv (k1 k2 : Q * Z * string) : Prop :=
  let '(q1, z1, s1) := k1 in
  let '(q2, z2, s2) := k2 in
  (q1 == q2)%Q /\ z1 = z2 /\ s1 = s2.

(** The first element of a list is least for the key order. *)
Definition head_least (l : list (CouponStored * Q)) : Prop :=
  match l with
  | [] => True
  | h :: _ => forall p, In p l -> ~ key_lt (sort_key p) (sort_key h)
  end.

(** The ranking of candidates: a higher rounded amount first, then an earlier
    [endDate], then the smaller code, [code_of] telling which code of a
    coupon is compared. *)
Definition ranks_before_by (code_of : CouponStored -> string)
    (a b : CouponStored * Q) : Prop :=
  (snd b < snd a)%Q
  \/ ((snd a == snd b)%Q
      /\ (endDate (fst a) < endDate (fst b)
          \/ (endDate (fst a) = endDate (fst b)
              /\ str_lt (code_of (fst a)) (code_of (fst b))))).

(** The ranking [best_coupon] sorts by: the third key is the code as stored. *)
Definition ranks_before : CouponStored * Q -> CouponStored * Q -> Prop :=
  ranks_before_by (fun c => code c).

(** The ranking with the normalized code as third key. *)
Definition ranks_before_normalized : CouponStored * Q -> CouponStored * Q -> Prop :=
  ranks_before_by (fun c => normalize (code c)).

(** What holds of the store in every world the handlers can reach: keys are
    unique, each coupon sits under its normalized code, and ledger counts are
    not negative. *)
Record store_ok (cs : list (string * CouponStored)) : Prop := mk_store_ok {
  store_keys_unique : NoDup (map fst cs);
  store_keys_normalized :
    Forall (fun kc : string * CouponStored => fst kc = normalize (code (snd kc))) cs;
  store_counts_nonneg :
    Forall (fun kc : string * CouponStored =>
              forall uid n, usage_count (snd kc) !! uid = Some n -> 0 <= n) cs
}.

(** A request to the service. *)
Inductive Call :=
| CallCreate (body : CouponIn)
| CallBest (req : BestCouponRequest)
| CallRedeem (code0 : string) (req : BestCouponRequest).

(** The world after a call, whatever it answered. *)
Definition run_call (call : Call) (w : World) : World :=
  match call with
  | CallCreate body => snd (post_coupons body w)
  | CallBest req => snd (best_coupon req w)
  | CallRedeem code0 req => snd (redeem code0 req w)
  end.

Definition run (calls : list Call) (w : World) : World :=
  fold_left (fun w call => run_call call w) calls w.

(** Whether a call is a successful redemption by [uid] of the coupon stored
    under [k]. *)
Definition redeems (k uid : string) (call : Call) (w : World) : bool :=
  match call with
  | CallRedeem code0 req =>
      match fst (redeem code0 req w) with
      | inr _ => String.eqb (normalize code0) k && String.eqb (userId (user req)) uid
      | inl _ => false
      end
  | _ => false
  end.

(** The number of such redemptions in a sequence of calls started in [w]. *)
Fixpoint redemptions (k uid : string) (calls : list Call) (w : World) : nat :=
  match calls with
  | [] => 0
  | call :: rest =>
      ((if redeems k uid call w then 1 else 0)
       + redemptions k uid rest (run_call call w))%nat
  end.

(** The worlds the service reaches from an empty store. *)
Inductive reachable : World -> Prop :=
| reachable_init w : coupons w = [] -> reachable w
| reachable_call call w : reachable w -> reachable (run_call call w).

(** An [Eligibility] with one restriction list made absent. *)
Definition without_tiers (e : Eligibility) : Eligibility :=
  mkEligibility None (minLifetimeSpend e) (minOrdersPlaced e) (firstOrderOnly e)
    (allowedCountries e) (minCartValue e) (applicableCategories e)
    (excludedCategories e) (minItemsCount e).

Definition without_countries (e : Eligibility) : Eligibility :=
  mkEligibility (allowedUserTiers e) (minLifetimeSpend e) (minOrdersPlaced e)
    (firstOrderOnly e) None (minCartValue e) (applicableCategories e)
    (excludedCategories e) (minItemsCount e).

(** A stored coupon with another rule set. *)
Definition with_eligibility (c : CouponStored) (e : option Eligibility) : CouponStored :=
  mkCouponStored
    (mkCouponIn (code c) (description c) (discountType c) (discountValue c)
       (maxDiscountAmount c) (startDate c) (endDate c) (usageLimitPerUser c) e)
    (id c) (usage_count c).

(** Characters of a normalized code. *)
Definition is_lower (a : ascii) : bool :=
  let n := nat_of_ascii a in ((97 <=? n) && (n <=? 122))%nat.

Fixpoint no_lower (s : string) : bool :=
  match s with
  | String a s' => negb (is_lower a) && no_lower s'
  | EmptyString => true
  end.

Definition first_char (s : string) : option ascii :=
  match s with String a _ => Some a | EmptyString => None end.

Fixpoint last_char (s : string) : option ascii :=
  match s with
  | String a EmptyString => Some a
  | String _ s' => last_char s'
  | EmptyString => None
  end.

(** Neither end of [s] is whitespace. *)
Definition trimmed (s : string) : bool :=
  match first_char s, last_char s with
  | Some a, Some b => negb (Py.is_space a) && negb (Py.is_space b)
  | _, _ => true
  end.

(** ** Sample data *)

Definition ex_no_rules : Eligibility :=
  mkEligibility None None None None None None None None None.

(** A user on a first order and a cart worth 600. *)
Definition ex_user : UserContext :=
  mkUserContext "u1" (Some "GOLD") (Some "IN") (Some 10000%Q) (Some 0).
Definition ex_cart : Cart := mkCart [mkCartItem "p1" "fashion" 300%Q 2].
Definition ex_req : BestCouponRequest := mkRequest ex_user ex_cart.

(** An empty store and a clock. *)
Definition ex_world (clock : nat -> Z) : World :=
  mkWorld [] clock 0 (fun _ => "coupon-id") 0.

(** WELCOME100: FLAT 100, first order only, cart of 500 or more, once per
    user, valid from 0 to 10. *)
Definition ex_welcome : CouponIn :=
  mkCouponIn "WELCOME100" None FLAT 100%Q None 0 10 (Some 1)
    (Some (mkEligibility None None None (Some true) None (Some 500%Q) None None None)).

(** A coupon whose tier list is present but empty. *)
Definition ex_empty_tiers : Eligibility :=
  mkEligibility (Some []) None None None None None None None None.
Definition ex_tierless : CouponStored :=
  mkCouponStored
    (mkCouponIn "TIERLESS" None FLAT 100%Q None 0 10 None (Some ex_empty_tiers))
    "coupon-id" ∅.

(** A PERCENT coupon with a negative cap. *)
Definition ex_negative_cap : CouponStored :=
  mkCouponStored
    (mkCouponIn "CAPPED" None PERCENT 10%Q (Some (-5)%Q) 0 10 None None)
    "coupon-id" ∅.

(** Two coupons that tie on amount and [endDate]; their codes are ["a"] and
    ["B"], stored under ["A"] and ["B"]. *)
Definition ex_lower_a : CouponIn :=
  mkCouponIn "a" None FLAT 100%Q None 0 10 None None.
Definition ex_upper_b : CouponIn :=
  mkCouponIn "B" None FLAT 100%Q None 0 10 None None.
Definition ex_tie_world : World :=
  run [CallCreate ex_lower_a; CallCreate ex_upper_b] (ex_world (fun _ => 5)).

(** WELCOME100 in the store, the clock at 5 for the first reading and at 11
    afterwards. *)
Definition ex_late_clock (n : nat) : Z := match n with O => 5 | _ => 11 end.
Definition ex_welcome_world (clock : nat -> Z) : World :=
  run [CallCreate ex_welcome] (ex_world clock).

(** A coupon nobody may use, valid from 0 to 10. *)
Definition ex_blocked : CouponIn :=
  mkCouponIn "BLOCKED" None FLAT 100%Q None 0 10 (Some 0) None.
Definition ex_blocked_world (clock : nat -> Z) : World :=
  run [CallCreate ex_blocked] (ex_world clock).

(** The coupon ["a"] in the store, redeemed once by [ex_user]. *)
Definition ex_used_world : World :=
  run [CallCreate ex_lower_a; CallRedeem "a" ex_req] (ex_world (fun _ => 5)).

(** The stored form of a sample coupon. *)
Definition ex_stored (c : CouponIn) : CouponStored := mkCouponStored c "coupon-id" ∅.

(** What validation guarantees of a coupon. *)
Definition coupon_valid (c : CouponIn) : Prop :=
  (0 < discountValue c)%Q /\ startDate c <= endDate c.

(** GOLD10: 10 percent up to 500 for GOLD users on a cart of 1000 or more. *)
Definition ex_gold10 : CouponStored :=
  ex_stored
    (mkCouponIn "GOLD10" None PERCENT 10%Q (Some 500%Q) 0 60 None
       (Some (mkEligibility (Some ["GOLD"]) None None None None (Some 1000%Q)
                None None None))).

(** Two coupons worth 100 each; ["ZED"] ends at 10, ["ABLE"] at 20. *)
Definition ex_ends_first : CouponIn :=
  mkCouponIn "ZED" None FLAT 100%Q None 0 10 None None.
Definition ex_ends_later : CouponIn :=
  mkCouponIn "ABLE" None FLAT 100%Q None 0 20 None None.

(** Strings made of whitespace only. *)
Fixpoint all_space (s : string) : bool :=
  match s with
  | String a s' => Py.is_space a && all_space s'
  | EmptyString => true
  end.

(** No ledger count is above the coupon's usage limit (a limit below 0
    counting as 0). *)
Definition within_limits (cs : list (string * CouponStored)) : Prop :=
  forall k c uid limit,
    In (k, c) cs -> usageLimitPerUser c = Some limit ->
    default 0 (usage_count c !! uid) <= Z.max 0 limit.

(** A clock that returns 5 for its first two readings and 11 afterwards. *)
Definition ex_drift_clock (n : nat) : Z := if (n <? 2)%nat then 5 else 11.

(** ** The rest of main.py *)

(** The constraints of [CartItem]: [unitPrice] has [ge=0], [quantity] has
    [ge=1]. *)
Definition CartItem_validate (it : CartItem) : Exn + CartItem :=
  if negb (Py.Qleb 0 (unitPrice it))
  then inl (ValidationError "unitPrice must be greater than or equal to 0")
  else if negb (1 <=? quantity it)
  then inl (ValidationError "quantity must be greater than or equal to 1")
  else inr it.

(** A [Cart] is valid when every item is. *)
Fixpoint Cart_items_validate (l : list CartItem) : Exn + list CartItem :=
  match l with
  | [] => inr []
  | it :: rest =>
      match CartItem_validate it with
      | inl e => inl e
      | inr it' =>
          match Cart_items_validate rest with
          | inl e => inl e
          | inr rest' => inr (it' :: rest')
          end
      end
  end.

Definition Cart_validate (c : Cart) : Exn + Cart :=
  match Cart_items_validate (items c) with
  | inl e => inl e
  | inr l => inr (mkCart l)
  end.

(** GET /coupons: [list(coupons.values())]. *)
Definition list_coupons : M (list CouponStored) :=
  cs ← get_coupons; mret (map snd cs).

Record LoginRequest := mkLoginRequest { email : string; password : string }.

Definition DEMO_USER_EMAIL : string := "hire-me@anshumat.org".
Definition DEMO_USER_PASSWORD : string := "HireMe@2025!".

Definition demo_user : list (string * Value) :=
  [ ("email", VStr DEMO_USER_EMAIL);
    ("password", VStr DEMO_USER_PASSWORD);
    ("userId", VStr "demo_hireme");
    ("userTier", VStr "REGULAR");
    ("country", VStr "IN");
    ("lifetimeSpend", VFloat 10000%Q);
    ("ordersPlaced", VInt 5) ].

(** POST /login *)
Definition login (req : LoginRequest) : M Value :=
  if String.eqb (email req) DEMO_USER_EMAIL && String.eqb (password req) DEMO_USER_PASSWORD
  then mret (VDict [ ("ok", VBool true); ("user", VDict demo_user) ])
  else raise (HTTPException 401 "Invalid credentials").

(** [timedelta(days=d)], in microseconds. *)
Definition timedelta_days (d : Z) : Z := d * 86400000000.

(** [CouponIn(...)]: construction validates, and raises when it fails. *)
Definition CouponIn_new (raw : CouponIn) : M CouponIn :=
  match CouponIn_validate raw with
  | inl e => raise e
  | inr c => mret c
  end.

(** [try: m  except Exception: pass] *)
Definition try_pass {A} (m : M A) : M unit :=
  fun w => match m w with (_, w') => (inr tt, w') end.

(** The startup hook: three sample coupons, added only to an empty store. *)
Definition seed_coupons : M unit :=
  cs ← get_coupons;
  match cs with
  | _ :: _ => mret tt
  | [] =>
      now ← now_utc;
      c1 ← CouponIn_new
             (mkCouponIn "WELCOME100" (Some "₹100 off for new users on cart >= 500")
                FLAT 100%Q None now (now + timedelta_days 30) (Some 1)
                (Some (mkEligibility None None None (Some true) None (Some 500%Q)
                         None None None)));
      c2 ← CouponIn_new
             (mkCouponIn "GOLD10" (Some "10% off up to ₹500 for GOLD users")
                PERCENT 10%Q (Some 500%Q) now (now + timedelta_days 60) None
                (Some (mkEligibility (Some ["GOLD"]) None None None None (Some 1000%Q)
                         None None None)));
      c3 ← CouponIn_new
             (mkCouponIn "FASHION5" (Some "5% off on fashion category")
                PERCENT 5%Q None now (now + timedelta_days 10) None
                (Some (mkEligibility None None None None None None
                         (Some ["fashion"]) None (Some 1))));
      _ ← try_pass (create_coupon c1);
      _ ← try_pass (create_coupon c2);
      _ ← try_pass (create_coupon c3);
      mret tt
  end.

(** The three coupons [seed_coupons] builds at instant [now]. *)
Definition seed_welcome100 (now : Z) : CouponIn :=
  mkCouponIn "WELCOME100" (Some "₹100 off for new users on cart >= 500")
    FLAT 100%Q None now (now + timedelta_days 30) (Some 1)
    (Some (mkEligibility None None None (Some true) None (Some 500%Q) None None None)).

Definition seed_gold10 (now : Z) : CouponIn :=
  mkCouponIn "GOLD10" (Some "10% off up to ₹500 for GOLD users")
    PERCENT 10%Q (Some 500%Q) now (now + timedelta_days 60) None
    (Some (mkEligibility (Some ["GOLD"]) None None None None (Some 1000%Q)
             None None None)).

Definition seed_fashion5 (now : Z) : CouponIn :=
  mkCouponIn "FASHION5" (Some "5% off on fashion category")
    PERCENT 5%Q None now (now + timedelta_days 10) None
    (Some (mkEligibility None None None None None None (Some ["fashion"]) None (Some 1))).

(** ** Facts about the Python primitives *)

Lemma Qltb_lt (a b : Q) : Py.Qltb a b = true <-> (a < b)%Q.
Proof.
  unfold Py.Qltb. rewrite negb_true_iff. split.
  - intros H. apply Qnot_le_lt. intros Hle.
    apply Qle_bool_iff in Hle. congruence.
  - intros H. destruct (Qle_bool b a) eqn:E; [|reflexivity].
    apply Qle_bool_iff in E. lra.
Qed.

Lemma Qltb_ge (a b : Q) : Py.Qltb a b = false <-> (b <= a)%Q.
Proof.
  unfold Py.Qltb. rewrite negb_false_iff. apply Qle_bool_iff.
Qed.

Lemma Qleb_le (a b : Q) : Py.Qleb a b = true <-> (a <= b)%Q.
Proof. apply Qle_bool_iff. Qed.

Lemma Qleb_gt (a b : Q) : Py.Qleb a b = false <-> (b < a)%Q.
Proof.
  unfold Py.Qleb. split.
  - intros H. apply Qnot_le_lt. intros Hle. apply Qle_bool_iff in Hle. congruence.
  - intros H. destruct (Qle_bool a b) eqn:E; [|reflexivity].
    apply Qle_bool_iff in E. lra.
Qed.

Lemma py_min_cases (a b : Q) :
  ((b < a)%Q /\ Py.min a b = b) \/ ((a <= b)%Q /\ Py.min a b = a).
Proof.
  unfold Py.min. destruct (Py.Qltb b a) eqn:E.
  - left. split; [now apply Qltb_lt | reflexivity].
  - right. split; [now apply Qltb_ge | reflexivity].
Qed.

Lemma py_min_Qmin (a b : Q) : Py.min a b = Qmin a b.
Proof.
  unfold Qmin, GenericMinMax.gmin.
  destruct (py_min_cases a b) as [[H ->] | [H ->]].
  - apply Qgt_alt in H. now rewrite H.
  - destruct (a ?= b)%Q eqn:E; try reflexivity.
    apply Qgt_alt in E. lra.
Qed.

Lemma percent_raw_nonneg (d v : Q) : (0 < d)%Q -> (0 <= v)%Q -> (0 <= d / 100 * v)%Q.
Proof.
  intros Hd Hv. apply Qmult_le_0_compat; [|assumption].
  apply Qle_shift_div_l; lra.
Qed.


(** ** The handlers, step by step *)

Ltac run_monad :=
  cbv [mbind M_bind mret M_ret raise get_coupons set_coupons
         coupon_within_dates now_utc uuid4];
  cbn [fst snd coupons wall_clock clock_reads uuid_source uuid_draws].

Lemma redeem_unfold (code0 : string) (req : BestCouponRequest) (w : World) :
  redeem code0 req w =
  match dict_get (normalize code0) (coupons w) with
  | None => (inl not_found, w)
  | Some c =>
      if negb (within_dates c (next_instant w))
      then (inl out_of_date_window, advance_clock 1 w) else
      if negb (usage_within_limit c (userId (user req)))
      then (inl usage_limit_reached, advance_clock 1 w) else
      if negb (eligibility_satisfied c (user req) (cart req))
      then (inl eligibility_not_satisfied, advance_clock 1 w) else
      if Py.Qleb (compute_discount_amount c (compute_cart_value (cart req))) 0
      then (inl zero_discount, advance_clock 1 w)
      else (inr (redeemed c
                   (Py.round2 (compute_discount_amount c (compute_cart_value (cart req))))),
            after_redeem (normalize code0) c (userId (user req)) w)
  end.
Proof.
  unfold redeem. run_monad.
  destruct (dict_get (normalize code0) (coupons w)) as [c|]; [|reflexivity].
  run_monad. unfold next_instant, advance_clock.
  repeat (match goal with |- context [if ?b then _ else _] => destruct b end; try reflexivity).
Qed.

Lemma advance_clock_S (n : nat) (w : World) :
  advance_clock n (advance_clock 1 w) = advance_clock (S n) w.
Proof.
  unfold advance_clock. cbn. f_equal. lia.
Qed.

Lemma advance_clock_0 (w : World) : advance_clock 0 w = w.
Proof. destruct w. reflexivity. Qed.

Lemma best_coupon_loop_eq (user : UserContext) (cart : Cart)
    (its : list (string * CouponStored)) :
  forall (acc : list (CouponStored * Q)) (w : World),
    best_coupon_loop user cart (compute_cart_value cart) its acc w =
    (inr (acc ++ surviving user cart (wall_clock w) (clock_reads w) its),
     advance_clock (length its) w).
Proof.
  induction its as [|[k c] rest IH]; intros acc w.
  - cbn. rewrite app_nil_r, advance_clock_0. reflexivity.
  - cbn [best_coupon_loop surviving length]. run_monad.
    unfold passes_gates.
    rewrite <- advance_clock_S.
    destruct (within_dates c (wall_clock w (clock_reads w))); cbn [negb andb];
      [|rewrite IH; reflexivity].
    destruct (usage_within_limit c (userId user)); cbn [negb andb];
      [|rewrite IH; reflexivity].
    destruct (eligibility_satisfied c user cart); cbn [negb andb];
      [|rewrite IH; reflexivity].
    destruct (Py.Qleb (compute_discount_amount c (compute_cart_value cart)) 0);
      cbn [negb]; rewrite IH; [reflexivity|].
    rewrite <- app_assoc. reflexivity.
Qed.

Lemma best_coupon_eq (req : BestCouponRequest) (w : World) :
  best_coupon req w =
  (inr (best_response
          (surviving (user req) (cart req) (wall_clock w) (S (clock_reads w)) (coupons w))),
   advance_clock (S (length (coupons w))) w).
Proof.
  unfold best_coupon. run_monad.
  rewrite best_coupon_loop_eq. cbn [app wall_clock clock_reads coupons].
  unfold advance_clock, best_response.
  cbn [app wall_clock clock_reads coupons uuid_source uuid_draws].
  rewrite Nat.add_succ_r.
  destruct (surviving _ _ _ _ _) as [|p l]; [reflexivity|].
  destruct (hd p (sort_candidates (p :: l))). reflexivity.
Qed.

(** ** Dictionaries *)

Section dict.
Context {V : Type}.
Implicit Types (d : list (string * V)) (k : string) (v : V).

Lemma dict_get_set_eq k v d : dict_get k (dict_set k v d) = Some v.
Proof.
  induction d as [|[k' v'] d IH]; cbn.
  - now rewrite String.eqb_refl.
  - destruct (String.eqb_spec k k') as [->|Hne]; cbn.
    + now rewrite String.eqb_refl.
    + destruct (String.eqb_spec k k'); [contradiction | exact IH].
Qed.

Lemma dict_get_set_ne k k' v d :
  k <> k' -> dict_get k' (dict_set k v d) = dict_get k' d.
Proof.
  intros Hne. induction d as [|[k0 v0] d IH]; cbn.
  - destruct (String.eqb_spec k' k); [congruence | reflexivity].
  - destruct (String.eqb_spec k k0) as [->|Hk]; cbn.
    + destruct (String.eqb_spec k' k0); [congruence | reflexivity].
    + destruct (String.eqb_spec k' k0); [reflexivity | exact IH].
Qed.

Lemma dict_set_absent k v d :
  dict_get k d = None -> dict_set k v d = d ++ [(k, v)].
Proof.
  induction d as [|[k' v'] d IH]; cbn; [reflexivity|].
  destruct (String.eqb_spec k k'); [discriminate|].
  intros H. now rewrite IH.
Qed.

Lemma dict_set_keys k v d :
  dict_get k d <> None -> map fst (dict_set k v d) = map fst d.
Proof.
  induction d as [|[k' v'] d IH]; cbn; [congruence|].
  destruct (String.eqb_spec k k'); cbn; [reflexivity|].
  intros H. now rewrite IH.
Qed.

Lemma dict_get_In k v d : dict_get k d = Some v -> In (k, v) d.
Proof.
  induction d as [|[k' v'] d IH]; cbn; [discriminate|].
  destruct (String.eqb_spec k k') as [->|Hne].
  - intros [= ->]. now left.
  - intros H. right. now apply IH.
Qed.

Lemma dict_get_None_keys k d : dict_get k d = None -> ~ In k (map fst d).
Proof.
  induction d as [|[k' v'] d IH]; cbn; [tauto|].
  destruct (String.eqb_spec k k') as [->|Hne]; [discriminate|].
  intros H [Heq|Hin]; [congruence | now apply IH].
Qed.

Lemma dict_set_In k v d p :
  In p (dict_set k v d) -> In p d \/ p = (k, v).
Proof.
  induction d as [|[k' v'] d IH]; cbn.
  - intros [<-|[]]. now right.
  - destruct (String.eqb_spec k k') as [->|Hne]; cbn.
    + intros [<-|Hin]; [now right | left; now right].
    + intros [<-|Hin]; [left; now left|].
      destruct (IH Hin) as [H|H]; [left; now right | now right].
Qed.

Lemma dict_pop_get k d : dict_get k (dict_pop k d) = None.
Proof.
  induction d as [|[k' v'] d IH]; cbn; [reflexivity|].
  destruct (String.eqb_spec k k') as [->|Hne]; cbn; [exact IH|].
  destruct (String.eqb_spec k k'); [contradiction | exact IH].
Qed.
End dict.

Lemma create_coupon_unfold (coupon : CouponIn) (w : World) :
  create_coupon coupon w =
  let k := normalize (code coupon) in
  if dict_contains k (coupons w)
  then (inl (HTTPException 400 ("Coupon code '" +:+ k +:+ "' already exists.")), w)
  else
    let stored := mkCouponStored coupon (uuid_source w (uuid_draws w)) ∅ in
    (inr stored,
     mkWorld (dict_set k stored (coupons w)) (wall_clock w) (clock_reads w)
       (uuid_source w) (S (uuid_draws w))).
Proof.
  unfold create_coupon. run_monad.
  destruct (dict_contains (normalize (code coupon)) (coupons w)); reflexivity.
Qed.

Lemma CouponIn_validate_ok (raw c : CouponIn) :
  CouponIn_validate raw = inr c ->
  c = raw /\ (0 < discountValue raw)%Q /\ startDate raw <= endDate raw.
Proof.
  unfold CouponIn_validate, end_after_start.
  destruct (Py.Qltb 0 (discountValue raw)) eqn:Hd; cbn [negb]; [|discriminate].
  destruct (Z.ltb_spec (endDate raw) (startDate raw)); [discriminate|].
  intros [= <-]. split; [now destruct raw|]. split; [now apply Qltb_lt | lia].
Qed.

(** ** The order of sort keys *)

Lemma str_lt_irrefl (s : string) : ~ str_lt s s.
Proof.
  unfold str_lt. intros H.
  assert (He : String.compare s s = Eq) by now apply String_as_OT.cmp_eq.
  congruence.
Qed.

Lemma str_lt_trans (s1 s2 s3 : string) : str_lt s1 s2 -> str_lt s2 s3 -> str_lt s1 s3.
Proof.
  unfold str_lt. intros H1 H2.
  apply String_as_OT.cmp_lt in H1, H2. apply String_as_OT.cmp_lt.
  eapply String_as_OT.lt_trans; eassumption.
Qed.

Lemma str_lt_total (s1 s2 : string) : str_lt s1 s2 \/ s1 = s2 \/ str_lt s2 s1.
Proof.
  unfold str_lt. destruct (String.compare s1 s2) eqn:E.
  - right. left. now apply String_as_OT.cmp_eq.
  - now left.
  - right. right. rewrite String.compare_antisym, E. reflexivity.
Qed.

Lemma str_ltb_spec (s1 s2 : string) : Py.str_ltb s1 s2 = true <-> str_lt s1 s2.
Proof.
  unfold Py.str_ltb, String.ltb, str_lt.
  destruct (String.compare s1 s2); split; congruence.
Qed.

Lemma key_ltb_spec (k1 k2 : Q * Z * string) : key_ltb k1 k2 = true <-> key_lt k1 k2.
Proof.
  destruct k1 as [[q1 z1] s1], k2 as [[q2 z2] s2]. unfold key_ltb, key_lt.
  destruct (Qeq_bool q1 q2) eqn:Eq; cbn [negb].
  - apply Qeq_bool_iff in Eq.
    destruct (Z.eqb_spec z1 z2) as [->|Hz]; cbn [negb].
    + rewrite str_ltb_spec. split; [intros H; right; auto|].
      intros [H|[_ [H|[_ H]]]]; [lra | lia | exact H].
    + rewrite Z.ltb_lt. split; [intros H; right; auto|].
      intros [H|[_ [H|[H _]]]]; [lra | exact H | contradiction].
  - apply Qeq_bool_neq in Eq. rewrite Qltb_lt.
    split; [now left|]. intros [H|[H _]]; [exact H | contradiction].
Qed.

Lemma key_lt_irrefl (k : Q * Z * string) : ~ key_lt k k.
Proof.
  destruct k as [[q z] s]. unfold key_lt.
  intros [H|[_ [H|[_ H]]]]; [lra | lia | now apply str_lt_irrefl in H].
Qed.

Lemma key_lt_trans (a b c : Q * Z * string) : key_lt a b -> key_lt b c -> key_lt a c.
Proof.
  destruct a as [[q1 z1] s1], b as [[q2 z2] s2], c as [[q3 z3] s3]. unfold key_lt.
  intros [H1|[E1 H1]] [H2|[E2 H2]].
  - left. lra.
  - left. lra.
  - left. lra.
  - right. split; [lra|].
    destruct H1 as [H1|[-> H1]], H2 as [H2|[-> H2]].
    + left. lia.
    + now left.
    + now left.
    + right. split; [reflexivity|]. eapply str_lt_trans; eassumption.
Qed.

Lemma key_total (a b : Q * Z * string) : key_lt a b \/ key_eqv a b \/ key_lt b a.
Proof.
  destruct a as [[q1 z1] s1], b as [[q2 z2] s2]. unfold key_lt, key_eqv.
  destruct (Q_dec q1 q2) as [[H|H]|H]; [left; left; exact H | right; right; left; exact H |].
  destruct (Z.lt_total z1 z2) as [Hz|[->|Hz]].
  - left. right. split; [assumption | now left].
  - destruct (str_lt_total s1 s2) as [Hs|[->|Hs]].
    + left. right. split; [assumption|]. right. now split.
    + right. left. now repeat split.
    + right. right. right. split; [lra|]. right. now split.
  - right. right. right. split; [lra | now left].
Qed.

Lemma key_lt_eqv_l (a b c : Q * Z * string) : key_eqv a b -> key_lt b c -> key_lt a c.
Proof.
  destruct a as [[q1 z1] s1], b as [[q2 z2] s2], c as [[q3 z3] s3].
  unfold key_lt, key_eqv. intros (E & -> & ->) [H|[E2 H]]; [left; lra|].
  right. split; [lra | exact H].
Qed.

Lemma key_lt_eqv_r (a b c : Q * Z * string) : key_lt a b -> key_eqv b c -> key_lt a c.
Proof.
  destruct a as [[q1 z1] s1], b as [[q2 z2] s2], c as [[q3 z3] s3].
  unfold key_lt, key_eqv. intros [H|[E2 H]] (E & -> & ->); [left; lra|].
  right. split; [lra | exact H].
Qed.

(** [<=] on keys is transitive. *)
Lemma key_not_lt_trans (a b c : Q * Z * string) :
  ~ key_lt b a -> ~ key_lt c b -> ~ key_lt c a.
Proof.
  intros Hba Hcb Hca.
  destruct (key_total a b) as [Hab|[Hab|Hab]]; [| |contradiction].
  - apply Hcb. eapply key_lt_trans; eassumption.
  - apply Hcb. eapply key_lt_eqv_r; eassumption.
Qed.

Lemma key_ltb_false (k1 k2 : Q * Z * string) : key_ltb k1 k2 = false <-> ~ key_lt k1 k2.
Proof.
  rewrite <- key_ltb_spec. destruct (key_ltb k1 k2); split; congruence.
Qed.

(** ** Sorting the candidates *)

Lemma sort_insert_In (x p : CouponStored * Q) (l : list (CouponStored * Q)) :
  In p (sort_insert x l) <-> p = x \/ In p l.
Proof.
  induction l as [|y l IH]; cbn; [intuition congruence|].
  destruct (key_ltb (sort_key y) (sort_key x)); cbn; [rewrite IH|];
    intuition congruence.
Qed.

Lemma sort_candidates_In (p : CouponStored * Q) (l : list (CouponStored * Q)) :
  In p (sort_candidates l) <-> In p l.
Proof.
  induction l as [|x l IH]; cbn; [tauto|].
  rewrite sort_insert_In, IH. intuition congruence.
Qed.

Lemma sort_insert_head_least (x : CouponStored * Q) (l : list (CouponStored * Q)) :
  head_least l -> head_least (sort_insert x l).
Proof.
  destruct l as [|y l]; cbn [sort_insert head_least].
  - intros _ p [<-|[]]. apply key_lt_irrefl.
  - intros Hy. destruct (key_ltb (sort_key y) (sort_key x)) eqn:E; cbn [head_least].
    + apply key_ltb_spec in E.
      intros p [<-|Hp]; [apply key_lt_irrefl|].
      apply sort_insert_In in Hp as [->|Hp].
      * intros H. apply (key_lt_irrefl (sort_key y)). eapply key_lt_trans; eassumption.
      * apply Hy. now right.
    + apply key_ltb_false in E.
      intros p [<-|Hp]; [apply key_lt_irrefl|].
      eapply key_not_lt_trans; [exact E | now apply Hy].
Qed.

Lemma sort_candidates_head_least (l : list (CouponStored * Q)) :
  head_least (sort_candidates l).
Proof.
  induction l as [|x l IH]; cbn; [exact I|]. now apply sort_insert_head_least.
Qed.

Lemma sort_candidates_hd (first : CouponStored * Q) (l : list (CouponStored * Q)) :
  let best := hd first (sort_candidates (first :: l)) in
  In best (first :: l)
  /\ forall p, In p (first :: l) -> ~ key_lt (sort_key p) (sort_key best).
Proof.
  pose proof (sort_candidates_head_least (first :: l)) as Hl.
  pose proof (sort_candidates_In first (first :: l)) as Hf.
  destruct (sort_candidates (first :: l)) as [|h t] eqn:E.
  - exfalso. apply Hf. now left.
  - cbn [hd]. split.
    + apply sort_candidates_In. rewrite E. now left.
    + intros p Hp. apply Hl. rewrite <- E. now apply sort_candidates_In.
Qed.

Lemma key_lt_ranks_before (a b : CouponStored * Q) :
  key_lt (sort_key a) (sort_key b) <-> ranks_before a b.
Proof.
  destruct a as [ca da], b as [cb db].
  unfold sort_key, key_lt, ranks_before, ranks_before_by. cbn [fst snd].
  split; (intros [H|[E H]]; [left; lra | right; split; [lra | exact H]]).
Qed.

Lemma key_eqv_sort_key (a b : CouponStored * Q) :
  key_eqv (sort_key a) (sort_key b) <->
  (snd a == snd b)%Q /\ endDate (fst a) = endDate (fst b) /\ code (fst a) = code (fst b).
Proof.
  destruct a as [ca da], b as [cb db]. unfold sort_key, key_eqv. cbn [fst snd].
  split; (intros (E & H1 & H2); split; [lra | now split]).
Qed.

(** ** What every reachable store satisfies *)

Lemma store_ok_nil : store_ok [].
Proof. split; constructor. Qed.

Lemma store_ok_In (cs : list (string * CouponStored)) (k : string) (c : CouponStored) :
  store_ok cs -> In (k, c) cs ->
  k = normalize (code c)
  /\ forall uid n, usage_count c !! uid = Some n -> 0 <= n.
Proof.
  intros [_ Hkeys Hcounts] Hin. apply list_elem_of_In in Hin.
  rewrite Forall_forall in Hkeys, Hcounts.
  split; [exact (Hkeys _ Hin) | exact (Hcounts _ Hin)].
Qed.

Lemma store_ok_add (cs : list (string * CouponStored)) (k : string) (c : CouponStored) :
  store_ok cs -> dict_get k cs = None ->
  k = normalize (code c) -> usage_count c = ∅ ->
  store_ok (dict_set k c cs).
Proof.
  intros [Hnd Hkeys Hcounts] Hnone Hk Hempty.
  rewrite (dict_set_absent _ _ _ Hnone). split.
  - rewrite map_app. cbn [map fst]. apply NoDup_app. split; [exact Hnd|].
    split; [|apply NoDup_singleton].
    intros x Hx Hx'. apply list_elem_of_singleton in Hx'. subst x.
    apply list_elem_of_In in Hx. now apply dict_get_None_keys in Hnone.
  - apply Forall_app. split; [exact Hkeys|]. now repeat constructor.
  - apply Forall_app. split; [exact Hcounts|]. repeat constructor.
    cbn [snd]. intros uid n. rewrite Hempty, lookup_empty. discriminate.
Qed.

Lemma store_ok_redeem (cs : list (string * CouponStored)) (k uid : string)
    (c : CouponStored) :
  store_ok cs -> dict_get k cs = Some c ->
  store_ok (dict_set k
              (mkCouponStored c (id c)
                 (<[uid := default 0 (usage_count c !! uid) + 1]> (usage_count c))) cs).
Proof.
  intros Hok Hc. pose proof Hok as [Hnd Hkeys Hcounts].
  destruct (store_ok_In cs k c Hok (dict_get_In _ _ _ Hc)) as [Hk Hn].
  split.
  - rewrite dict_set_keys; [exact Hnd | congruence].
  - apply Forall_forall. intros p Hp. apply list_elem_of_In, dict_set_In in Hp.
    destruct Hp as [Hp| ->]; [|exact Hk].
    rewrite Forall_forall in Hkeys. apply Hkeys. now apply list_elem_of_In.
  - apply Forall_forall. intros p Hp. apply list_elem_of_In, dict_set_In in Hp.
    destruct Hp as [Hp| ->].
    + rewrite Forall_forall in Hcounts. apply Hcounts. now apply list_elem_of_In.
    + cbn [snd usage_count]. intros uid' n.
      destruct (decide (uid = uid')) as [<-|Hne].
      * rewrite lookup_insert_eq. intros [= <-].
        destruct (usage_count c !! uid) as [m|] eqn:Hm; cbn; [|lia].
        specialize (Hn _ _ Hm). lia.
      * rewrite lookup_insert_ne by assumption. apply Hn.
Qed.

Lemma run_call_store_ok (call : Call) (w : World) :
  store_ok (coupons w) -> store_ok (coupons (run_call call w)).
Proof.
  intros Hok. destruct call as [body|req|code0 req]; cbn [run_call].
  - unfold post_coupons. destruct (CouponIn_validate body) as [e|c]; [exact Hok|].
    rewrite create_coupon_unfold. cbn zeta. unfold dict_contains.
    destruct (dict_get (normalize (code c)) (coupons w)) eqn:Hk; [exact Hok|].
    cbn [snd coupons]. now apply store_ok_add.
  - rewrite best_coupon_eq. exact Hok.
  - rewrite redeem_unfold.
    destruct (dict_get (normalize code0) (coupons w)) as [c|] eqn:Hc; [|exact Hok].
    repeat (match goal with |- context [if ?b then _ else _] => destruct b end;
            [exact Hok|]).
    cbn [snd after_redeem coupons]. now apply store_ok_redeem.
Qed.

Lemma reachable_store_ok (w : World) : reachable w -> store_ok (coupons w).
Proof.
  induction 1 as [w Hw|call w _ IH].
  - rewrite Hw. apply store_ok_nil.
  - now apply run_call_store_ok.
Qed.

(** ** Eligibility *)

(** C1 (as amended).  A restriction list that is present but empty restricts
    nothing: with [allowedUserTiers = []] (or [allowedCountries = []]) the
    eligibility check answers exactly as it does with that list absent.  Only a
    present, non-empty list restricts: the check fails for a user whose tier
    (or country) is not in it. *)
Theorem empty_restriction_list_is_no_restriction
    (c : CouponStored) (e : Eligibility) (user : UserContext) (cart : Cart) :
  eligibility c = Some e ->
  (allowedUserTiers e = Some [] ->
     eligibility_satisfied c user cart
     = eligibility_satisfied (with_eligibility c (Some (without_tiers e))) user cart)
  /\ (allowedCountries e = Some [] ->
        eligibility_satisfied c user cart
        = eligibility_satisfied (with_eligibility c (Some (without_countries e))) user cart)
  /\ (forall l, allowedUserTiers e = Some l -> l <> [] ->
        Py.contains l (userTier user) = false ->
        eligibility_satisfied c user cart = false)
  /\ (forall l, allowedCountries e = Some l -> l <> [] ->
        Py.contains l (country user) = false ->
        eligibility_satisfied c user cart = false).
Proof.
  intros He. unfold eligibility_satisfied, with_eligibility. rewrite He.
  cbn [eligibility base without_tiers without_countries
       allowedUserTiers minLifetimeSpend minOrdersPlaced firstOrderOnly
       allowedCountries minCartValue applicableCategories excludedCategories
       minItemsCount].
  repeat split.
  - intros ->. reflexivity.
  - intros ->. reflexivity.
  - intros [|x l] -> Hl Hin; [contradiction|].
    cbn [Py.truthy_list default from_option Datatypes.id]. now rewrite Hin.
  - intros [|x l] -> Hl Hin; [contradiction|].
    cbn [Py.truthy_list default from_option Datatypes.id]. rewrite Hin. cbn [negb andb].
    repeat (match goal with |- (if ?b then _ else _) = false => destruct b end;
            try reflexivity).
Qed.

(** A coupon whose tier list is present but empty still passes the
    eligibility check, so it is not true that such a list lets nothing match. *)
Lemma empty_tier_list_passes :
  eligibility ex_tierless = Some ex_empty_tiers
  /\ allowedUserTiers ex_empty_tiers = Some []
  /\ eligibility_satisfied ex_tierless ex_user ex_cart = true.
Proof. repeat split; vm_compute; reflexivity. Qed.

(** The theorem on that coupon. *)
Lemma empty_restriction_list_witness :
  eligibility_satisfied ex_tierless ex_user ex_cart
  = eligibility_satisfied
      (with_eligibility ex_tierless (Some (without_tiers ex_empty_tiers)))
      ex_user ex_cart.
Proof.
  exact (proj1 (empty_restriction_list_is_no_restriction
                  ex_tierless ex_empty_tiers ex_user ex_cart eq_refl) eq_refl).
Defined.

(** ** The candidates of [best_coupon] *)

Lemma surviving_In (user : UserContext) (cart : Cart) (clock : nat -> Z)
    (its : list (string * CouponStored)) :
  forall (n : nat) (c : CouponStored) (d : Q),
    In (c, d) (surviving user cart clock n its) ->
    exists k m,
      In (k, c) its
      /\ passes_gates user cart (clock m) c = true
      /\ d = Py.round2 (compute_discount_amount c (compute_cart_value cart)).
Proof.
  induction its as [|[k0 c0] rest IH]; intros n c d; cbn [surviving]; [intros []|].
  rewrite in_app_iff. intros [H|H].
  - destruct (passes_gates user cart (clock n) c0) eqn:Hg; [|destruct H].
    destruct H as [[= <- <-]|[]]. exists k0, n. split; [now left | now split].
  - destruct (IH _ _ _ H) as (k & m & Hin & Hg & Hd).
    exists k, m. split; [now right | now split].
Qed.

Lemma surviving_codes_sublist (user : UserContext) (cart : Cart) (clock : nat -> Z)
    (its : list (string * CouponStored)) :
  forall n,
    sublist (map (fun p : CouponStored * Q => code (fst p))
               (surviving user cart clock n its))
            (map (fun kc : string * CouponStored => code (snd kc)) its).
Proof.
  induction its as [|[k0 c0] rest IH]; intros n; cbn [surviving map].
  - constructor.
  - destruct (passes_gates user cart (clock n) c0); cbn [app map fst snd].
    + apply sublist_skip, IH.
    + apply sublist_cons, IH.
Qed.

Lemma store_codes_NoDup (cs : list (string * CouponStored)) :
  store_ok cs -> NoDup (map (fun kc : string * CouponStored => code (snd kc)) cs).
Proof.
  intros [Hnd Hkeys _].
  apply (NoDup_fmap_1 normalize). change (@fmap list _) with (@map). rewrite map_map.
  erewrite map_ext_in; [exact Hnd|].
  intros kc Hin. cbn. symmetry.
  rewrite Forall_forall in Hkeys. apply Hkeys. now apply list_elem_of_In.
Qed.

Lemma NoDup_map_In_inj {A B} (f : A -> B) (l : list A) (x y : A) :
  NoDup (map f l) -> In x l -> In y l -> f x = f y -> x = y.
Proof.
  induction l as [|a l IH]; cbn; [intros _ []|].
  intros Hnd Hx Hy Hf. apply NoDup_cons in Hnd as [Hna Hnd].
  destruct Hx as [->|Hx], Hy as [->|Hy]; [reflexivity | | |now apply IH].
  - exfalso. apply Hna. rewrite Hf. apply list_elem_of_In. now apply in_map.
  - exfalso. apply Hna. rewrite <- Hf. apply list_elem_of_In. now apply in_map.
Qed.

(** C2 (as amended).  [best_coupon] collects the candidates that pass the
    four gates, each with its rounded amount.  With none it answers that no
    coupon is eligible.  Otherwise the winner is a candidate that no candidate
    precedes in the order: higher rounded amount first, then earlier
    [endDate], then the smaller code as stored (the code is compared as it was
    submitted, not normalized).  In a store kept by the service no two
    coupons have the same stored code, so the winner strictly precedes every
    other candidate and is unique. *)
Theorem best_coupon_winner_order (req : BestCouponRequest) (w : World) :
  exists cands w1,
    best_coupon_loop (user req) (cart req) (compute_cart_value (cart req))
      (coupons w) [] (snd (now_utc w)) = (inr cands, w1)
    /\ (forall c d, In (c, d) cands ->
          d = Py.round2 (compute_discount_amount c (compute_cart_value (cart req))))
    /\ (cands = [] ->
          fst (best_coupon req w)
          = inr (mkBestCouponResponse None (Some 0%Q) (Some "No eligible coupons")))
    /\ (cands <> [] ->
          exists best_c best_d,
            In (best_c, best_d) cands
            /\ fst (best_coupon req w)
               = inr (mkBestCouponResponse
                        (Some (dict_pop "usage_count" (CouponStored_dict best_c)))
                        (Some best_d) (Some "OK"))
            /\ (forall p, In p cands ->
                  ranks_before (best_c, best_d) p
                  \/ ((snd p == best_d)%Q
                      /\ endDate (fst p) = endDate best_c
                      /\ code (fst p) = code best_c))
            /\ (store_ok (coupons w) ->
                forall p, In p cands ->
                  p = (best_c, best_d) \/ ranks_before (best_c, best_d) p)).
Proof.
  rewrite best_coupon_loop_eq, best_coupon_eq.
  cbn [now_utc snd fst wall_clock clock_reads coupons app].
  set (cands := surviving _ _ _ _ _).
  eexists cands, _. split; [reflexivity|]. split; [|split].
  - intros c d Hin. apply surviving_In in Hin as (_ & _ & _ & _ & Hd). exact Hd.
  - intros ->. reflexivity.
  - intros Hne. destruct cands as [|first l] eqn:Ecands; [contradiction|].
    cbn [best_response].
    destruct (sort_candidates_hd first l) as [Hin Hleast].
    destruct (hd first (sort_candidates (first :: l))) as [best_c best_d] eqn:Ebest.
    exists best_c, best_d. split; [exact Hin|]. split; [reflexivity|].
    assert (Hweak : forall p, In p (first :: l) ->
              ranks_before (best_c, best_d) p
              \/ ((snd p == best_d)%Q /\ endDate (fst p) = endDate best_c
                  /\ code (fst p) = code best_c)).
    { intros p Hp. specialize (Hleast p Hp).
      destruct (key_total (sort_key (best_c, best_d)) (sort_key p)) as [H|[H|H]];
        [| |contradiction].
      - left. now apply key_lt_ranks_before.
      - right. apply key_eqv_sort_key in H. cbn [fst snd] in H.
        destruct H as (E & H1 & H2). split; [lra | now split]. }
    split; [exact Hweak|].
    intros Hok p Hp. destruct (Hweak p Hp) as [H|(_ & _ & Hcode)]; [now right|].
    left. apply (NoDup_map_In_inj (fun p : CouponStored * Q => code (fst p)) (first :: l));
      [|assumption|assumption|exact Hcode].
    rewrite <- Ecands. subst cands.
    eapply sublist_NoDup; [|apply surviving_codes_sublist].
    now apply store_codes_NoDup.
Qed.

(** Two coupons tie on amount and [endDate]; their codes are ["a"] and
    ["B"].  By normalized code ["A"] precedes ["B"], yet the winner is
    ["B"]: the sort compares the stored codes, and ["B" < "a"]. *)
Lemma stored_code_breaks_tie :
  store_ok (coupons ex_tie_world)
  /\ (exists a b d,
        dict_get "A" (coupons ex_tie_world) = Some a
        /\ dict_get "B" (coupons ex_tie_world) = Some b
        /\ fst (best_coupon_loop ex_user ex_cart (compute_cart_value ex_cart)
                  (coupons ex_tie_world) [] (snd (now_utc ex_tie_world)))
           = inr [(a, d); (b, d)]
        /\ ranks_before_normalized (a, d) (b, d)
        /\ ~ ranks_before_normalized (b, d) (a, d)
        /\ fst (best_coupon ex_req ex_tie_world)
           = inr (mkBestCouponResponse
                    (Some (dict_pop "usage_count" (CouponStored_dict b)))
                    (Some d) (Some "OK"))).
Proof.
  split.
  - apply reachable_store_ok. unfold ex_tie_world, run. cbn [fold_left].
    do 2 apply reachable_call. now apply reachable_init.
  - eexists _, _, _. split; [vm_compute; reflexivity|].
    split; [vm_compute; reflexivity|].
    split; [vm_compute; reflexivity|].
    split; [right; split; [reflexivity|]; right; split; reflexivity|].
    split; [|vm_compute; reflexivity].
    intros [H|[_ [H|[_ H]]]]; vm_compute in H; discriminate.
Qed.

(** ** Redemption *)

Lemma within_dates_spec (c : CouponStored) (n : Z) :
  within_dates c n = true <-> startDate c <= n <= endDate c.
Proof. unfold within_dates. rewrite andb_true_iff, !Z.leb_le. tauto. Qed.

Lemma ledger_count_after_redeem (k uid : string) (c : CouponStored) (w : World) :
  dict_get k (coupons w) = Some c ->
  ledger_count (coupons (after_redeem k c uid w)) k uid
  = ledger_count (coupons w) k uid + 1.
Proof.
  intros Hc. unfold ledger_count, after_redeem. cbn [coupons].
  rewrite dict_get_set_eq, Hc. cbn [usage_count].
  now rewrite lookup_insert_eq.
Qed.

Lemma ledger_count_after_redeem_other (k uid k' uid' : string) (c : CouponStored)
    (w : World) :
  dict_get k (coupons w) = Some c ->
  (k', uid') <> (k, uid) ->
  ledger_count (coupons (after_redeem k c uid w)) k' uid'
  = ledger_count (coupons w) k' uid'.
Proof.
  intros Hc Hne. unfold ledger_count, after_redeem. cbn [coupons].
  destruct (String.eqb_spec k k') as [<-|Hk].
  - rewrite dict_get_set_eq, Hc. cbn [usage_count].
    rewrite lookup_insert_ne; [reflexivity | congruence].
  - now rewrite dict_get_set_ne.
Qed.

Lemma redeem_reasons_distinct :
  NoDup [not_found; out_of_date_window; usage_limit_reached;
         eligibility_not_satisfied; zero_discount].
Proof.
  repeat (apply NoDup_cons_2;
          [intros H; repeat (apply elem_of_cons in H as [H|H]; [discriminate H|]);
           now apply elem_of_nil in H|]).
  apply NoDup_nil_2.
Qed.

(** C3.  [redeem] looks the coupon up under the normalized code and raises
    NotFound (404) when there is none.  Otherwise it reads the clock once and
    applies the gates in the order date window, usage limit, eligibility,
    positive discount; the first gate that fails decides the reason, and the
    five reasons are pairwise distinct.  When every gate passes it answers
    with the stored code and the discount computed from this cart, rounded to
    two places, and the ledger count of this user on this coupon is one more
    than before, every other count being as before. *)
Theorem redeem_gates_in_order (code0 : string) (req : BestCouponRequest) (w : World) :
  let k := normalize code0 in
  let uid := userId (user req) in
  (dict_get k (coupons w) = None -> redeem code0 req w = (inl not_found, w))
  /\ (forall c, dict_get k (coupons w) = Some c ->
        let now := next_instant w in
        let discount := compute_discount_amount c (compute_cart_value (cart req)) in
        (within_dates c now = false ->
           fst (redeem code0 req w) = inl out_of_date_window)
        /\ (within_dates c now = true ->
            usage_within_limit c uid = false ->
              fst (redeem code0 req w) = inl usage_limit_reached)
        /\ (within_dates c now = true ->
            usage_within_limit c uid = true ->
            eligibility_satisfied c (user req) (cart req) = false ->
              fst (redeem code0 req w) = inl eligibility_not_satisfied)
        /\ (within_dates c now = true ->
            usage_within_limit c uid = true ->
            eligibility_satisfied c (user req) (cart req) = true ->
            (discount <= 0)%Q ->
              fst (redeem code0 req w) = inl zero_discount)
        /\ (within_dates c now = true ->
            usage_within_limit c uid = true ->
            eligibility_satisfied c (user req) (cart req) = true ->
            (0 < discount)%Q ->
              exists w',
                redeem code0 req w = (inr (redeemed c (Py.round2 discount)), w')
                /\ ledger_count (coupons w') k uid = ledger_count (coupons w) k uid + 1
                /\ forall k' uid', (k', uid') <> (k, uid) ->
                     ledger_count (coupons w') k' uid'
                     = ledger_count (coupons w) k' uid'))
  /\ NoDup [not_found; out_of_date_window; usage_limit_reached;
            eligibility_not_satisfied; zero_discount].
Proof.
  intros k uid. split; [|split; [|apply redeem_reasons_distinct]].
  - intros Hnone. rewrite redeem_unfold. fold k. now rewrite Hnone.
  - intros c Hc now discount. subst now discount.
    rewrite redeem_unfold. fold k uid. rewrite Hc.
    repeat split.
    + intros ->. reflexivity.
    + intros -> ->. reflexivity.
    + intros -> -> ->. reflexivity.
    + intros -> -> -> Hd. apply Qleb_le in Hd. now rewrite Hd.
    + intros -> -> -> Hd. apply Qleb_gt in Hd. rewrite Hd. cbn [negb].
      eexists. split; [reflexivity|]. split.
      * now apply ledger_count_after_redeem.
      * intros k' uid' Hne. now apply ledger_count_after_redeem_other.
Qed.

(** A successful redemption of WELCOME100, looked up as [" welcome100 "]. *)
Lemma redeem_gates_witness :
  exists w',
    redeem " welcome100 " ex_req (ex_welcome_world (fun _ => 5))
    = (inr (redeemed (ex_stored ex_welcome)
              (Py.round2 (compute_discount_amount (ex_stored ex_welcome)
                            (compute_cart_value (cart ex_req))))), w')
    /\ ledger_count (coupons w') "WELCOME100" "u1"
       = ledger_count (coupons (ex_welcome_world (fun _ => 5))) "WELCOME100" "u1" + 1
    /\ forall k' uid', (k', uid') <> ("WELCOME100", "u1") ->
         ledger_count (coupons w') k' uid'
         = ledger_count (coupons (ex_welcome_world (fun _ => 5))) k' uid'.
Proof.
  refine (proj2 (proj2 (proj2 (proj2
            (proj1 (proj2 (redeem_gates_in_order " welcome100 " ex_req
                             (ex_welcome_world (fun _ => 5))))
               (ex_stored ex_welcome) _)))) _ _ _ _);
    vm_compute; reflexivity.
Defined.

(** ** Sequences of calls *)

Lemma redeem_failure_keeps_coupons (code0 : string) (req : BestCouponRequest)
    (w w' : World) (e : Exn) :
  redeem code0 req w = (inl e, w') -> coupons w' = coupons w.
Proof.
  rewrite redeem_unfold.
  destruct (dict_get (normalize code0) (coupons w)) as [c|]; [|now intros [= _ <-]].
  repeat (match goal with |- context [if ?b then _ else _] => destruct b end;
          [now intros [= _ <-]|]).
  discriminate.
Qed.

Lemma post_coupons_ledger (body : CouponIn) (w : World) (k uid : string) :
  ledger_count (coupons (snd (post_coupons body w))) k uid
  = ledger_count (coupons w) k uid.
Proof.
  unfold post_coupons. destruct (CouponIn_validate body) as [e|c]; [reflexivity|].
  rewrite create_coupon_unfold. cbn zeta. unfold dict_contains.
  destruct (dict_get (normalize (code c)) (coupons w)) eqn:Hk; [reflexivity|].
  cbn [snd coupons]. unfold ledger_count.
  destruct (String.eqb_spec (normalize (code c)) k) as [<-|Hne].
  - now rewrite dict_get_set_eq, Hk.
  - now rewrite dict_get_set_ne.
Qed.

Lemma run_call_ledger (call : Call) (w : World) (k uid : string) :
  ledger_count (coupons (run_call call w)) k uid
  = ledger_count (coupons w) k uid + (if redeems k uid call w then 1 else 0).
Proof.
  destruct call as [body|req|code0 req]; cbn [run_call redeems].
  - rewrite post_coupons_ledger. lia.
  - rewrite best_coupon_eq. cbn. lia.
  - rewrite redeem_unfold.
    destruct (dict_get (normalize code0) (coupons w)) as [c|] eqn:Hc;
      [|cbn; lia].
    repeat (match goal with |- context [if ?b then _ else _] => destruct b end;
            [cbn; lia|]).
    cbn [fst snd].
    destruct (String.eqb_spec (normalize code0) k) as [<-|Hk].
    + destruct (String.eqb_spec (userId (user req)) uid) as [<-|Hu]; cbn [andb].
      * now apply ledger_count_after_redeem.
      * rewrite ledger_count_after_redeem_other; [lia | assumption | congruence].
    + cbn [andb]. rewrite ledger_count_after_redeem_other; [lia | assumption | congruence].
Qed.

Lemma run_ledger (calls : list Call) :
  forall (w : World) (k uid : string),
    ledger_count (coupons (run calls w)) k uid
    = ledger_count (coupons w) k uid + Z.of_nat (redemptions k uid calls w).
Proof.
  induction calls as [|call rest IH]; intros w k uid; cbn [run fold_left redemptions].
  - lia.
  - fold (run rest (run_call call w)). rewrite IH, run_call_ledger.
    destruct (redeems k uid call w); lia.
Qed.

(** A stored coupon never changes except for its ledger. *)
Lemma run_call_keeps_definition (call : Call) (w : World) (k : string) (c : CouponStored) :
  dict_get k (coupons w) = Some c ->
  exists c', dict_get k (coupons (run_call call w)) = Some c'
             /\ base c' = base c /\ id c' = id c.
Proof.
  intros Hc. destruct call as [body|req|code0 req]; cbn [run_call].
  - unfold post_coupons. destruct (CouponIn_validate body) as [e|b]; [now exists c|].
    rewrite create_coupon_unfold. cbn zeta. unfold dict_contains.
    destruct (dict_get (normalize (code b)) (coupons w)) eqn:Hk; [now exists c|].
    cbn [snd coupons]. exists c. rewrite dict_get_set_ne; [auto | congruence].
  - rewrite best_coupon_eq. now exists c.
  - rewrite redeem_unfold.
    destruct (dict_get (normalize code0) (coupons w)) as [c1|] eqn:Hc1;
      [|now exists c].
    repeat (match goal with |- context [if ?b then _ else _] => destruct b end;
            [now exists c|]).
    cbn [snd after_redeem coupons].
    destruct (String.eqb_spec (normalize code0) k) as [Heq|Hk].
    + rewrite Heq in *. rewrite dict_get_set_eq. eexists. split; [reflexivity|].
      cbn. split; congruence.
    + exists c. now rewrite dict_get_set_ne.
Qed.

Lemma run_keeps_definition (calls : list Call) :
  forall (w : World) (k : string) (c : CouponStored),
    dict_get k (coupons w) = Some c ->
    exists c', dict_get k (coupons (run calls w)) = Some c'
               /\ base c' = base c /\ id c' = id c.
Proof.
  induction calls as [|call rest IH]; intros w k c Hc; cbn [run fold_left].
  - now exists c.
  - fold (run rest (run_call call w)).
    destruct (run_call_keeps_definition call w k c Hc) as (c1 & H1 & Hb1 & Hi1).
    destruct (IH _ _ _ H1) as (c2 & H2 & Hb2 & Hi2).
    exists c2. split; [assumption|]. split; congruence.
Qed.

Lemma within_dates_base (c c' : CouponStored) (n : Z) :
  base c' = base c -> within_dates c' n = within_dates c n.
Proof. unfold within_dates. now intros ->. Qed.

(** C4 (as amended).  A redemption that fails leaves every coupon and every
    ledger as it was.  And when a coupon has [usageLimitPerUser = N] and, over
    any sequence of calls to the service started with no redemption recorded
    for a user, that user has redeemed it N times, the ledger count is N and
    the user's next attempt fails and leaves the count at N: with
    usage-limit-reached when the clock is inside the date window, with
    out-of-date-window otherwise (the date gate comes first). *)
Theorem failed_redeem_keeps_ledger_and_limit_holds :
  (forall code0 req w e w',
      redeem code0 req w = (inl e, w') -> coupons w' = coupons w)
  /\ (forall w0 calls k c uid N code0 req,
        dict_get k (coupons w0) = Some c ->
        usageLimitPerUser c = Some (Z.of_nat N) ->
        ledger_count (coupons w0) k uid = 0 ->
        redemptions k uid calls w0 = N ->
        normalize code0 = k ->
        userId (user req) = uid ->
        let w := run calls w0 in
        ledger_count (coupons w) k uid = Z.of_nat N
        /\ exists e w',
             redeem code0 req w = (inl e, w')
             /\ coupons w' = coupons w
             /\ ledger_count (coupons w') k uid = Z.of_nat N
             /\ (within_dates c (next_instant w) = true -> e = usage_limit_reached)
             /\ (within_dates c (next_instant w) = false -> e = out_of_date_window)).
Proof.
  split; [intros; eapply redeem_failure_keeps_coupons; eassumption|].
  intros w0 calls k c uid N code0 req Hc Hlim H0 HN Hk Hu w.
  assert (Hcount : ledger_count (coupons w) k uid = Z.of_nat N).
  { subst w. rewrite run_ledger, H0, HN. lia. }
  split; [exact Hcount|].
  destruct (run_keeps_definition calls w0 k c Hc) as (c' & Hc' & Hb & _).
  fold w in Hc'.
  assert (Hgate : usage_within_limit c' uid = false).
  { unfold usage_within_limit. rewrite Hb, Hlim.
    unfold ledger_count in Hcount. rewrite Hc' in Hcount. rewrite Hcount.
    apply Z.ltb_irrefl. }
  rewrite redeem_unfold, Hk, Hc', Hu, Hgate, (within_dates_base c c' _ Hb).
  destruct (within_dates c (next_instant w)); cbn [negb].
  - eexists _, _. split; [reflexivity|]. cbn [advance_clock coupons].
    repeat split; [assumption | discriminate].
  - eexists _, _. split; [reflexivity|]. cbn [advance_clock coupons].
    repeat split; [assumption | discriminate].
Qed.

(** WELCOME100 allows one use.  After one redemption at instant 5 the next
    attempt comes at instant 11, past [endDate = 10]: it fails on the date
    window, not on the usage limit. *)
Lemma late_attempt_fails_on_date_window :
  dict_get "WELCOME100" (coupons (ex_welcome_world ex_late_clock))
  = Some (ex_stored ex_welcome)
  /\ usageLimitPerUser (ex_stored ex_welcome) = Some (Z.of_nat 1)
  /\ ledger_count (coupons (ex_welcome_world ex_late_clock)) "WELCOME100" "u1" = 0
  /\ redemptions "WELCOME100" "u1" [CallRedeem "welcome100" ex_req]
       (ex_welcome_world ex_late_clock) = 1%nat
  /\ fst (redeem "welcome100" ex_req
            (run [CallRedeem "welcome100" ex_req] (ex_welcome_world ex_late_clock)))
     = inl out_of_date_window
  /\ out_of_date_window <> usage_limit_reached.
Proof.
  repeat split; try (vm_compute; reflexivity). discriminate.
Qed.

(** The same coupon with the clock held inside the window. *)
Lemma limit_holds_witness :
  let w := run [CallRedeem "welcome100" ex_req] (ex_welcome_world (fun _ => 5)) in
  ledger_count (coupons w) "WELCOME100" "u1" = Z.of_nat 1
  /\ exists e w',
       redeem "welcome100" ex_req w = (inl e, w')
       /\ coupons w' = coupons w
       /\ ledger_count (coupons w') "WELCOME100" "u1" = Z.of_nat 1
       /\ (within_dates (ex_stored ex_welcome) (next_instant w) = true ->
           e = usage_limit_reached)
       /\ (within_dates (ex_stored ex_welcome) (next_instant w) = false ->
           e = out_of_date_window).
Proof.
  refine (proj2 failed_redeem_keeps_ledger_and_limit_holds
            (ex_welcome_world (fun _ => 5)) [CallRedeem "welcome100" ex_req]
            "WELCOME100" (ex_stored ex_welcome) "u1" 1%nat "welcome100" ex_req
            _ _ _ _ _ _); vm_compute; reflexivity.
Defined.

(** ** The discount calculator *)

(** C6.  [compute_discount_amount] is the calculator of the specification:
    for FLAT the smaller of the cart value and [discountValue]; for PERCENT
    [raw = (discountValue / 100) * cartValue], capped at [maxDiscountAmount]
    when that is set and [raw] otherwise.  The value is the exact one: nothing
    is rounded here. *)
Theorem compute_discount_amount_refines_spec (c : CouponStored) (cart_value : Q) :
  compute_discount_amount c cart_value = computeDiscount_spec c cart_value.
Proof.
  unfold compute_discount_amount, computeDiscount_spec.
  destruct (discountType c); [apply py_min_Qmin|].
  destruct (maxDiscountAmount c); [apply py_min_Qmin | reflexivity].
Qed.

(** C5 (as amended).  For a coupon with [discountValue > 0] and a cart value
    [>= 0]: a FLAT amount lies between 0 and the cart value; a PERCENT amount
    without [maxDiscountAmount] is [>= 0]; a PERCENT amount with
    [maxDiscountAmount = m] is [<= m], and it is [>= 0] when [m >= 0] and
    negative when [m < 0] ([maxDiscountAmount] is not validated). *)
Theorem compute_discount_amount_bounds (c : CouponStored) (cart_value : Q) :
  (0 < discountValue c)%Q -> (0 <= cart_value)%Q ->
  let amount := compute_discount_amount c cart_value in
  (discountType c = FLAT -> (0 <= amount)%Q /\ (amount <= cart_value)%Q) /\
  (discountType c = PERCENT ->
     match maxDiscountAmount c with
     | None => (0 <= amount)%Q
     | Some m => (amount <= m)%Q /\ ((0 <= m)%Q -> (0 <= amount)%Q)
                 /\ ((m < 0)%Q -> (amount < 0)%Q)
     end).
Proof.
  intros Hd Hv amount. subst amount. unfold compute_discount_amount.
  split; intros Ht; rewrite Ht.
  - destruct (py_min_cases cart_value (discountValue c)) as [[H ->] | [H ->]]; lra.
  - pose proof (percent_raw_nonneg _ _ Hd Hv) as Hraw.
    destruct (maxDiscountAmount c) as [m|]; [|exact Hraw].
    destruct (py_min_cases (discountValue c / 100 * cart_value) m) as [[H ->] | [H ->]];
      repeat split; intros; lra.
Qed.

(** A PERCENT coupon with [maxDiscountAmount = -5] on a cart worth 100: the
    amount is -5, below 0. *)
Lemma negative_cap_gives_negative_amount :
  (0 < discountValue ex_negative_cap)%Q
  /\ (0 <= 100)%Q
  /\ discountType ex_negative_cap = PERCENT
  /\ maxDiscountAmount ex_negative_cap = Some (-5)%Q
  /\ compute_discount_amount ex_negative_cap 100 = (-5)%Q
  /\ ~ (0 <= compute_discount_amount ex_negative_cap 100)%Q.
Proof.
  split; [reflexivity|]. split; [vm_compute; discriminate|].
  split; [reflexivity|]. split; [reflexivity|]. split; [reflexivity|].
  vm_compute. intros H. apply H. reflexivity.
Qed.

(** The bounds on a FLAT 100 coupon and a cart worth 600. *)
Lemma compute_discount_amount_bounds_witness :
  (0 <= compute_discount_amount ex_tierless 600)%Q
  /\ (compute_discount_amount ex_tierless 600 <= 600)%Q.
Proof.
  refine (proj1 (compute_discount_amount_bounds ex_tierless 600 _ _) eq_refl).
  - reflexivity.
  - vm_compute. discriminate.
Defined.

(** ** Normalized codes *)

Lemma upper_ascii_not_lower (a : ascii) : is_lower (Py.upper_ascii a) = false.
Proof. destruct a as [[] [] [] [] [] [] [] []]; reflexivity. Qed.

Lemma upper_ascii_space (a : ascii) : Py.is_space (Py.upper_ascii a) = Py.is_space a.
Proof. destruct a as [[] [] [] [] [] [] [] []]; reflexivity. Qed.

Lemma no_lower_upper (s : string) : no_lower (Py.upper s) = true.
Proof.
  induction s as [|a s IH]; cbn; [reflexivity|].
  now rewrite upper_ascii_not_lower, IH.
Qed.

Lemma first_char_upper (s : string) :
  first_char (Py.upper s) = option_map Py.upper_ascii (first_char s).
Proof. destruct s; reflexivity. Qed.

Lemma last_char_upper (s : string) :
  last_char (Py.upper s) = option_map Py.upper_ascii (last_char s).
Proof.
  induction s as [|a s IH]; [reflexivity|].
  cbn [Py.upper]. destruct s as [|b s]; [reflexivity|].
  cbn [Py.upper last_char] in *. exact IH.
Qed.

Lemma trimmed_upper (s : string) : trimmed (Py.upper s) = trimmed s.
Proof.
  unfold trimmed. rewrite first_char_upper, last_char_upper.
  destruct (first_char s), (last_char s); cbn; try reflexivity.
  now rewrite !upper_ascii_space.
Qed.

Lemma lstrip_first (s : string) (a : ascii) :
  first_char (Py.lstrip s) = Some a -> Py.is_space a = false.
Proof.
  induction s as [|b s IH]; cbn; [discriminate|].
  destruct (Py.is_space b) eqn:Hb; [exact IH|].
  cbn. intros [= <-]. exact Hb.
Qed.

Lemma rstrip_last (s : string) (a : ascii) :
  last_char (Py.rstrip s) = Some a -> Py.is_space a = false.
Proof.
  induction s as [|b s IH]; cbn; [discriminate|].
  destruct (Py.rstrip s) as [|c t] eqn:Hr.
  - destruct (Py.is_space b) eqn:Hb; cbn; [discriminate|].
    intros [= <-]. exact Hb.
  - cbn [last_char] in *. exact IH.
Qed.

Lemma rstrip_first (s : string) (a : ascii) :
  first_char (Py.rstrip s) = Some a -> first_char s = Some a.
Proof.
  destruct s as [|b s]; cbn; [discriminate|].
  destruct (Py.rstrip s); [destruct (Py.is_space b)|]; cbn; congruence.
Qed.

Lemma trimmed_strip (s : string) : trimmed (Py.strip s) = true.
Proof.
  unfold trimmed, Py.strip.
  destruct (first_char (Py.rstrip (Py.lstrip s))) as [a|] eqn:Hf; [|reflexivity].
  destruct (last_char (Py.rstrip (Py.lstrip s))) as [b|] eqn:Hl; [|reflexivity].
  apply rstrip_first, lstrip_first in Hf. apply rstrip_last in Hl.
  now rewrite Hf, Hl.
Qed.

Lemma normalize_trimmed (s : string) : trimmed (normalize s) = true.
Proof. unfold normalize. rewrite trimmed_upper. apply trimmed_strip. Qed.

Lemma normalize_no_lower (s : string) : no_lower (normalize s) = true.
Proof. apply no_lower_upper. Qed.

(** C7.  [create_coupon] keys the store by the code trimmed and uppercased,
    for the uniqueness test and for the entry it adds alike; a code whose
    normalized form is already a key is refused with status 400 and the world
    is left as it was, so no entry is ever overwritten; a fresh code adds one
    entry at the end, with an empty ledger, and changes no other entry; and a
    body with [endDate < startDate] fails validation before the handler runs,
    again leaving the world as it was. *)
Theorem create_coupon_normalizes_and_rejects (coupon : CouponIn) (w : World) :
  let k := normalize (code coupon) in
  (k = Py.upper (Py.strip (code coupon)) /\ trimmed k = true /\ no_lower k = true)
  /\ (forall c0, dict_get k (coupons w) = Some c0 ->
        create_coupon coupon w =
          (inl (HTTPException 400 ("Coupon code '" +:+ k +:+ "' already exists.")), w))
  /\ (dict_get k (coupons w) = None ->
        exists stored w',
          create_coupon coupon w = (inr stored, w')
          /\ base stored = coupon /\ usage_count stored = ∅
          /\ coupons w' = coupons w ++ [(k, stored)]
          /\ dict_get k (coupons w') = Some stored
          /\ forall k', k' <> k -> dict_get k' (coupons w') = dict_get k' (coupons w))
  /\ (endDate coupon < startDate coupon ->
        exists e, CouponIn_validate coupon = inl e /\ post_coupons coupon w = (inl e, w))
  /\ (forall e w', post_coupons coupon w = (inl e, w') -> w' = w).
Proof.
  intros k. split; [|split; [|split; [|split]]].
  - split; [reflexivity|]. split; [apply normalize_trimmed | apply normalize_no_lower].
  - intros c0 Hc0. rewrite create_coupon_unfold. fold k.
    unfold dict_contains. now rewrite Hc0.
  - intros Hnone. rewrite create_coupon_unfold. fold k.
    unfold dict_contains. rewrite Hnone. cbn zeta.
    eexists _, _. split; [reflexivity|]. cbn [base usage_count coupons].
    split; [reflexivity|]. split; [reflexivity|].
    split; [now apply dict_set_absent|].
    split; [apply dict_get_set_eq|].
    intros k' Hne. apply dict_get_set_ne. congruence.
  - intros Hlt. unfold post_coupons, CouponIn_validate, end_after_start.
    destruct (Py.Qltb 0 (discountValue coupon)); cbn [negb].
    + destruct (Z.ltb_spec (endDate coupon) (startDate coupon)); [|lia].
      eexists. split; reflexivity.
    + eexists. split; reflexivity.
  - intros e w'. unfold post_coupons.
    destruct (CouponIn_validate coupon) as [e0|c] eqn:Hv.
    + unfold raise. now intros [= _ <-].
    + rewrite create_coupon_unfold. cbn zeta.
      destruct (dict_contains (normalize (code c)) (coupons w)); [|discriminate].
      now intros [= _ <-].
Qed.

(** [" welcome100 "] collides with the stored WELCOME100. *)
Lemma duplicate_code_witness :
  create_coupon
    (mkCouponIn " welcome100 " None PERCENT 5%Q None 0 10 None None)
    (ex_welcome_world (fun _ => 5))
  = (inl (HTTPException 400 "Coupon code 'WELCOME100' already exists."),
     ex_welcome_world (fun _ => 5)).
Proof.
  refine (proj1 (proj2 (create_coupon_normalizes_and_rejects
                          (mkCouponIn " welcome100 " None PERCENT 5%Q None 0 10 None None)
                          (ex_welcome_world (fun _ => 5))))
            (ex_stored ex_welcome) _).
  vm_compute; reflexivity.
Defined.

(** ** The clock readings of [best_coupon] *)

Lemma surviving_ext (user : UserContext) (cart : Cart) (clock clock' : nat -> Z)
    (its : list (string * CouponStored)) :
  forall n n',
    (forall i, (i < length its)%nat -> clock (n + i)%nat = clock' (n' + i)%nat) ->
    surviving user cart clock n its = surviving user cart clock' n' its.
Proof.
  induction its as [|[k c] rest IH]; intros n n' H; cbn [surviving]; [reflexivity|].
  cbn [length] in H. f_equal.
  - specialize (H 0%nat ltac:(lia)). rewrite !Nat.add_0_r in H. now rewrite H.
  - apply IH. intros i Hi. specialize (H (S i) ltac:(lia)).
    now rewrite !Nat.add_succ_r in H.
Qed.

(** C8 (as amended).  [best_coupon] has no [now] input.  It reads the wall
    clock once on entry, a value it does not use, and once more for each
    stored coupon, for that coupon's date gate.  It never raises and changes
    no coupon and no ledger, whatever the clock returns; its response is
    determined by the store, the user, the cart and the readings taken for
    the coupons.  When every reading of the clock is the same instant [now],
    calling it again gives the same winner and the same amount, and so does
    every call in a world with this store and this clock. *)
Theorem best_coupon_determined_by_readings (req : BestCouponRequest) (w : World) :
  (exists r w1,
     best_coupon req w = (inr r, w1)
     /\ coupons w1 = coupons w
     /\ clock_reads w1 = (S (length (coupons w)) + clock_reads w)%nat)
  /\ (forall w',
        coupons w' = coupons w ->
        (forall i, (i < length (coupons w))%nat ->
           wall_clock w' (S (clock_reads w') + i) = wall_clock w (S (clock_reads w) + i)) ->
        fst (best_coupon req w') = fst (best_coupon req w))
  /\ (forall now,
        (forall n, wall_clock w n = now) ->
        exists r w1 w2,
          best_coupon req w = (inr r, w1)
          /\ best_coupon req w1 = (inr r, w2)
          /\ coupons w1 = coupons w
          /\ coupons w2 = coupons w
          /\ forall w',
               coupons w' = coupons w ->
               (forall n, wall_clock w' n = now) ->
               fst (best_coupon req w') = inr r).
Proof.
  assert (Hsame : forall w',
            coupons w' = coupons w ->
            (forall i, (i < length (coupons w))%nat ->
               wall_clock w' (S (clock_reads w') + i)
               = wall_clock w (S (clock_reads w) + i)) ->
            best_coupon req w'
            = (inr (best_response
                      (surviving (user req) (cart req) (wall_clock w)
                         (S (clock_reads w)) (coupons w))),
               advance_clock (S (length (coupons w'))) w')).
  { intros w' Hcs Hclock'. rewrite best_coupon_eq, Hcs.
    do 3 f_equal. now apply surviving_ext. }
  split; [|split].
  - eexists _, _. split; [apply best_coupon_eq|]. split; reflexivity.
  - intros w' Hcs Hclock'. rewrite (Hsame w' Hcs Hclock'), best_coupon_eq. reflexivity.
  - intros now Hclock. eexists _, _, _. split; [apply best_coupon_eq|].
    split; [apply Hsame; [reflexivity|]|].
    { intros i _. cbn [advance_clock wall_clock]. now rewrite !Hclock. }
    split; [reflexivity|]. split; [reflexivity|].
    intros w' Hcs Hclock'. rewrite Hsame; [reflexivity | exact Hcs|].
    intros i _. now rewrite Hclock, Hclock'.
Qed.

(** The theorem in a store that holds WELCOME100, the clock held at 5. *)
Lemma best_coupon_determined_by_readings_witness :
  exists r w1 w2,
    best_coupon ex_req (ex_welcome_world (fun _ => 5)) = (inr r, w1)
    /\ best_coupon ex_req w1 = (inr r, w2)
    /\ coupons w1 = coupons (ex_welcome_world (fun _ => 5))
    /\ coupons w2 = coupons (ex_welcome_world (fun _ => 5))
    /\ forall w',
         coupons w' = coupons (ex_welcome_world (fun _ => 5)) ->
         (forall n, wall_clock w' n = 5) ->
         fst (best_coupon ex_req w') = inr r.
Proof.
  exact (proj2 (proj2 (best_coupon_determined_by_readings ex_req
                         (ex_welcome_world (fun _ => 5))))
           5 (fun _ => eq_refl)).
Defined.

(** The same store, user and cart, and the same reading 5 on entry (the
    value of the handler's [now]): with the coupon's own reading at 5 the
    winner is WELCOME100, with it at 11 there is none.  And in one world whose
    clock moves from 5 to 11 between two calls, the first call names
    WELCOME100 and the second, with the store unchanged, names none. *)
Lemma same_now_different_offers :
  coupons (ex_welcome_world (fun _ => 5)) = coupons (ex_welcome_world ex_late_clock)
  /\ fst (now_utc (ex_welcome_world (fun _ => 5))) = inr 5
  /\ fst (now_utc (ex_welcome_world ex_late_clock)) = inr 5
  /\ fst (best_coupon ex_req (ex_welcome_world (fun _ => 5)))
     = inr (mkBestCouponResponse (Some (public_dict (ex_stored ex_welcome)))
              (Some (Py.round2 100)) (Some "OK"))
  /\ fst (best_coupon ex_req (ex_welcome_world ex_late_clock))
     = inr (mkBestCouponResponse None (Some 0%Q) (Some "No eligible coupons"))
  /\ fst (best_coupon ex_req (ex_welcome_world ex_drift_clock))
     = inr (mkBestCouponResponse (Some (public_dict (ex_stored ex_welcome)))
              (Some (Py.round2 100)) (Some "OK"))
  /\ fst (best_coupon ex_req (snd (best_coupon ex_req (ex_welcome_world ex_drift_clock))))
     = inr (mkBestCouponResponse None (Some 0%Q) (Some "No eligible coupons"))
  /\ coupons (snd (best_coupon ex_req (ex_welcome_world ex_drift_clock)))
     = coupons (ex_welcome_world ex_drift_clock).
Proof.
  repeat split; vm_compute; reflexivity.
Qed.

(** ** The returned representation *)

Lemma dict_pop_usage_count (c : CouponStored) :
  dict_pop "usage_count" (CouponStored_dict c) = public_dict c.
Proof. reflexivity. Qed.

Lemma public_dict_limit (c c' : CouponStored) :
  public_dict c = public_dict c' -> usageLimitPerUser c = usageLimitPerUser c'.
Proof.
  unfold public_dict, CouponIn_dict. cbn [app]. intros H.
  injection H as _ _ _ _ _ _ _ H _ _.
  destruct (usageLimitPerUser c), (usageLimitPerUser c'); cbn in H; congruence.
Qed.

Lemma best_response_winner (cands : list (CouponStored * Q)) (d : list (string * Value)) :
  coupon (best_response cands) = Some d ->
  exists best_c best_d, In (best_c, best_d) cands /\ d = public_dict best_c.
Proof.
  destruct cands as [|first l]; cbn [best_response coupon]; [discriminate|].
  destruct (sort_candidates_hd first l) as [Hin _].
  destruct (hd first (sort_candidates (first :: l))) as [best_c best_d].
  cbn [coupon]. rewrite dict_pop_usage_count. intros [= <-]. now exists best_c, best_d.
Qed.

(** C9.  When [best_coupon] names a winner, the coupon it returns has no
    [usage_count] entry: it is the stored coupon's public fields and [id],
    and it is the same whatever the winner's ledger holds. *)
Theorem best_coupon_redacts_ledger
    (req : BestCouponRequest) (w w' : World) (r : BestCouponResponse)
    (d : list (string * Value)) :
  best_coupon req w = (inr r, w') ->
  coupon r = Some d ->
  dict_get "usage_count" d = None
  /\ exists k c,
       In (k, c) (coupons w)
       /\ d = CouponIn_dict c ++ [ ("id", VStr (id c)) ]
       /\ forall ledger : gmap string Z,
            dict_pop "usage_count"
              (CouponStored_dict (mkCouponStored c (id c) ledger)) = d.
Proof.
  rewrite best_coupon_eq. intros [= <- _] Hd.
  apply best_response_winner in Hd as (best_c & best_d & Hin & ->).
  split; [reflexivity|].
  apply surviving_In in Hin as (k & _ & Hin & _).
  exists k, best_c. split; [exact Hin|]. split; reflexivity.
Qed.

(** The winner has been redeemed once, and its representation shows no
    ledger. *)
Lemma best_coupon_redacts_witness :
  ledger_count (coupons ex_used_world) "A" "u1" = 1
  /\ dict_get "usage_count" (CouponIn_dict ex_lower_a ++ [("id", VStr "coupon-id")]) = None
  /\ exists k c,
       In (k, c) (coupons ex_used_world)
       /\ CouponIn_dict ex_lower_a ++ [("id", VStr "coupon-id")]
          = CouponIn_dict c ++ [ ("id", VStr (id c)) ]
       /\ forall ledger : gmap string Z,
            dict_pop "usage_count"
              (CouponStored_dict (mkCouponStored c (id c) ledger))
            = CouponIn_dict ex_lower_a ++ [("id", VStr "coupon-id")].
Proof.
  split; [vm_compute; reflexivity|].
  refine (best_coupon_redacts_ledger ex_req ex_used_world
            (snd (best_coupon ex_req ex_used_world))
            (mkBestCouponResponse
               (Some (CouponIn_dict ex_lower_a ++ [("id", VStr "coupon-id")]))
               (Some (Py.round2 100)) (Some "OK"))
            (CouponIn_dict ex_lower_a ++ [("id", VStr "coupon-id")]) _ _);
    vm_compute; reflexivity.
Defined.

(** ** A usage limit of zero *)

Lemma usage_limit_zero (c : CouponStored) (uid : string) :
  usageLimitPerUser c = Some 0 ->
  (forall u n, usage_count c !! u = Some n -> 0 <= n) ->
  usage_within_limit c uid = false.
Proof.
  intros Hlim Hn. unfold usage_within_limit. rewrite Hlim.
  apply Z.ltb_ge. destruct (usage_count c !! uid) as [n|] eqn:E; cbn; [|lia].
  exact (Hn _ _ E).
Qed.

Lemma passes_gates_usage (user : UserContext) (cart : Cart) (now : Z) (c : CouponStored) :
  passes_gates user cart now c = true -> usage_within_limit c (userId user) = true.
Proof.
  unfold passes_gates. rewrite !andb_true_iff. tauto.
Qed.

(** C10 (as amended).  In a store kept by the service, a coupon with
    [usageLimitPerUser = 0] fails the usage-limit gate for every user, also
    one who never redeemed it; it is never a candidate of [best_coupon] and
    never the coupon returned; and every redemption attempt against it fails
    and changes no ledger: with usage-limit-reached when the clock is inside
    the date window, with out-of-date-window otherwise (the date gate comes
    first). *)
Theorem zero_usage_limit_blocks (w : World) (k : string) (c : CouponStored) :
  store_ok (coupons w) ->
  dict_get k (coupons w) = Some c ->
  usageLimitPerUser c = Some 0 ->
  (forall uid, usage_within_limit c uid = false)
  /\ (forall req cands w1,
        best_coupon_loop (user req) (cart req) (compute_cart_value (cart req))
          (coupons w) [] (snd (now_utc w)) = (inr cands, w1) ->
        forall d, ~ In (c, d) cands)
  /\ (forall req r w',
        best_coupon req w = (inr r, w') ->
        coupon r <> Some (dict_pop "usage_count" (CouponStored_dict c)))
  /\ (forall code0 req,
        normalize code0 = k ->
        exists e w',
          redeem code0 req w = (inl e, w')
          /\ coupons w' = coupons w
          /\ (within_dates c (next_instant w) = true -> e = usage_limit_reached)
          /\ (within_dates c (next_instant w) = false -> e = out_of_date_window)).
Proof.
  intros Hok Hc Hlim.
  assert (Hgate : forall uid, usage_within_limit c uid = false).
  { intros uid. apply usage_limit_zero; [exact Hlim|].
    exact (proj2 (store_ok_In _ _ _ Hok (dict_get_In _ _ _ Hc))). }
  assert (Hcand : forall user cart clock n d,
            ~ In (c, d) (surviving user cart clock n (coupons w))).
  { intros user cart clock n d Hin.
    apply surviving_In in Hin as (_ & m & _ & Hg & _).
    apply passes_gates_usage in Hg. rewrite Hgate in Hg. discriminate. }
  split; [exact Hgate|]. split; [|split].
  - intros req cands w1. rewrite best_coupon_loop_eq. intros [= <- _] d.
    cbn [app]. apply Hcand.
  - intros req r w'. rewrite best_coupon_eq. intros [= <- _] Hr.
    apply best_response_winner in Hr as (best_c & best_d & Hin & Heq).
    rewrite dict_pop_usage_count in Heq. apply public_dict_limit in Heq.
    apply surviving_In in Hin as (k' & m & Hin & Hg & _).
    apply passes_gates_usage in Hg.
    rewrite usage_limit_zero in Hg; [discriminate | congruence |].
    exact (proj2 (store_ok_In _ _ _ Hok Hin)).
  - intros code0 req Hk. rewrite redeem_unfold, Hk, Hc, Hgate.
    destruct (within_dates c (next_instant w)); cbn [negb];
      eexists _, _; (split; [reflexivity|]); cbn [advance_clock coupons];
      repeat split; congruence.
Qed.

(** A coupon with [usageLimitPerUser = 0], valid from 0 to 10, at instant
    11: the attempt fails on the date window, not on the usage limit. *)
Lemma blocked_coupon_outside_window :
  store_ok (coupons (ex_blocked_world (fun _ => 11)))
  /\ dict_get "BLOCKED" (coupons (ex_blocked_world (fun _ => 11)))
     = Some (ex_stored ex_blocked)
  /\ usageLimitPerUser (ex_stored ex_blocked) = Some 0
  /\ fst (redeem "blocked" ex_req (ex_blocked_world (fun _ => 11)))
     = inl out_of_date_window
  /\ out_of_date_window <> usage_limit_reached.
Proof.
  split.
  - apply reachable_store_ok. unfold ex_blocked_world, run. cbn [fold_left].
    apply reachable_call. now apply reachable_init.
  - repeat split; try (vm_compute; reflexivity). discriminate.
Qed.

(** The same coupon with the clock inside the window. *)
Lemma zero_usage_limit_witness :
  usage_within_limit (ex_stored ex_blocked) "u1" = false
  /\ exists e w',
       redeem "blocked" ex_req (ex_blocked_world (fun _ => 5)) = (inl e, w')
       /\ coupons w' = coupons (ex_blocked_world (fun _ => 5))
       /\ (within_dates (ex_stored ex_blocked)
             (next_instant (ex_blocked_world (fun _ => 5))) = true ->
           e = usage_limit_reached)
       /\ (within_dates (ex_stored ex_blocked)
             (next_instant (ex_blocked_world (fun _ => 5))) = false ->
           e = out_of_date_window).
Proof.
  assert (Hok : store_ok (coupons (ex_blocked_world (fun _ => 5)))).
  { apply reachable_store_ok. unfold ex_blocked_world, run. cbn [fold_left].
    apply reachable_call. now apply reachable_init. }
  pose proof (zero_usage_limit_blocks (ex_blocked_world (fun _ => 5)) "BLOCKED"
                (ex_stored ex_blocked) Hok eq_refl eq_refl) as H.
  split; [exact (proj1 H "u1")|].
  exact (proj2 (proj2 (proj2 H)) "blocked" ex_req eq_refl).
Defined.

(** ** Further properties *)

Lemma run_call_valid (call : Call) (w : World) :
  Forall (fun kc : string * CouponStored => coupon_valid (snd kc)) (coupons w) ->
  Forall (fun kc : string * CouponStored => coupon_valid (snd kc))
         (coupons (run_call call w)).
Proof.
  intros Hv. destruct call as [body|req|code0 req]; cbn [run_call].
  - unfold post_coupons. destruct (CouponIn_validate body) as [e|c] eqn:Hc; [exact Hv|].
    apply CouponIn_validate_ok in Hc as (-> & Hd & Hdates).
    rewrite create_coupon_unfold. cbn zeta. unfold dict_contains.
    destruct (dict_get (normalize (code body)) (coupons w)) eqn:Hk; [exact Hv|].
    cbn [snd coupons]. rewrite (dict_set_absent _ _ _ Hk).
    apply Forall_app. split; [exact Hv|]. repeat constructor; assumption.
  - rewrite best_coupon_eq. exact Hv.
  - rewrite redeem_unfold.
    destruct (dict_get (normalize code0) (coupons w)) as [c|] eqn:Hc; [|exact Hv].
    repeat (match goal with |- context [if ?b then _ else _] => destruct b end;
            [exact Hv|]).
    cbn [snd after_redeem coupons].
    apply Forall_forall. intros p Hp. apply list_elem_of_In, dict_set_In in Hp.
    rewrite Forall_forall in Hv. destruct Hp as [Hp| ->].
    + apply Hv. now apply list_elem_of_In.
    + cbn [snd base]. apply dict_get_In, list_elem_of_In in Hc. exact (Hv _ Hc).
Qed.

(** X1.  In every world the service reaches from an empty store, keys are
    unique, every coupon sits under its normalized code, no ledger count is
    negative, and every stored coupon has [discountValue > 0] and
    [endDate >= startDate]. *)
Theorem reachable_store_invariant (w : World) :
  reachable w ->
  store_ok (coupons w)
  /\ forall k c, dict_get k (coupons w) = Some c ->
       (0 < discountValue c)%Q /\ startDate c <= endDate c.
Proof.
  intros Hr. split; [now apply reachable_store_ok|].
  assert (Hv : Forall (fun kc : string * CouponStored => coupon_valid (snd kc))
                      (coupons w)).
  { induction Hr as [w Hw|call w _ IH]; [rewrite Hw; constructor|].
    now apply run_call_valid. }
  intros k c Hc. apply dict_get_In, list_elem_of_In in Hc.
  rewrite Forall_forall in Hv. exact (Hv _ Hc).
Qed.

(** The invariant in a store that holds WELCOME100. *)
Lemma reachable_store_invariant_witness :
  store_ok (coupons (ex_welcome_world (fun _ => 5)))
  /\ forall k c, dict_get k (coupons (ex_welcome_world (fun _ => 5))) = Some c ->
       (0 < discountValue c)%Q /\ startDate c <= endDate c.
Proof.
  apply reachable_store_invariant.
  unfold ex_welcome_world, run. cbn [fold_left].
  apply reachable_call. now apply reachable_init.
Defined.

(** X2.  Over any sequence of calls, the ledger count of a user on a coupon
    grows by exactly the number of that user's successful redemptions of it:
    it is never decremented and never reset. *)
Theorem ledger_counts_redemptions (calls : list Call) (w : World) (k uid : string) :
  ledger_count (coupons (run calls w)) k uid
  = ledger_count (coupons w) k uid + Z.of_nat (redemptions k uid calls w)
  /\ ledger_count (coupons w) k uid <= ledger_count (coupons (run calls w)) k uid.
Proof.
  rewrite run_ledger. split; lia.
Qed.

(** The scenarios of the specification.  WELCOME100 with a first-order
    user and a cart worth 600 is eligible and gives 100.00; with a cart worth
    50 it is not eligible.  GOLD10 with a GOLD user and a cart worth 6000
    gives 600 capped to 500.00.  Of two coupons worth 100.00, the one that
    ends first wins although its code is the larger. *)
Theorem specification_scenarios :
  (eligibility_satisfied (ex_stored ex_welcome) ex_user ex_cart = true
   /\ Py.round2 (compute_discount_amount (ex_stored ex_welcome)
                   (compute_cart_value ex_cart)) = Py.round2 100)
  /\ eligibility_satisfied (ex_stored ex_welcome) ex_user
       (mkCart [mkCartItem "p1" "fashion" 50%Q 1]) = false
  /\ (eligibility_satisfied ex_gold10 ex_user
        (mkCart [mkCartItem "p1" "fashion" 6000%Q 1]) = true
      /\ Py.round2 (compute_discount_amount ex_gold10 6000) = Py.round2 500)
  /\ fst (best_coupon ex_req
            (run [CallCreate ex_ends_later; CallCreate ex_ends_first]
               (ex_world (fun _ => 5))))
     = inr (mkBestCouponResponse (Some (public_dict (ex_stored ex_ends_first)))
              (Some (Py.round2 100)) (Some "OK")).
Proof.
  repeat split; vm_compute; reflexivity.
Qed.

(** X4.  The ranking [best_coupon] sorts by is a strict order, and two
    candidates that neither precedes agree on rounded amount, [endDate] and
    stored code. *)
Theorem ranks_before_strict_order :
  (forall a, ~ ranks_before a a)
  /\ (forall a b c, ranks_before a b -> ranks_before b c -> ranks_before a c)
  /\ (forall a b,
        ranks_before a b \/ ranks_before b a
        \/ ((snd a == snd b)%Q /\ endDate (fst a) = endDate (fst b)
            /\ code (fst a) = code (fst b))).
Proof.
  split; [|split].
  - intros a H. apply key_lt_ranks_before in H. now apply key_lt_irrefl in H.
  - intros a b c H1 H2. apply key_lt_ranks_before in H1, H2.
    apply key_lt_ranks_before. eapply key_lt_trans; eassumption.
  - intros a b. destruct (key_total (sort_key a) (sort_key b)) as [H|[H|H]].
    + left. now apply key_lt_ranks_before.
    + right. right. now apply key_eqv_sort_key.
    + right. left. now apply key_lt_ranks_before.
Qed.

(** ** Carts *)

Lemma cart_value_fold (l : list CartItem) :
  forall a : Q,
    (fold_left (fun acc item => acc + unitPrice item * inject_Z (quantity item)) l a
     == a + fold_left (fun acc item => acc + unitPrice item * inject_Z (quantity item)) l 0)%Q.
Proof.
  induction l as [|x l IH]; intros a; cbn [fold_left]; [lra|].
  rewrite (IH (a + _)%Q), (IH (0 + _)%Q). lra.
Qed.

Lemma items_count_fold (l : list CartItem) :
  forall a : Z,
    fold_left (fun acc item => acc + quantity item) l a
    = a + fold_left (fun acc item => acc + quantity item) l 0.
Proof.
  induction l as [|x l IH]; intros a; cbn [fold_left]; [lia|].
  rewrite (IH (a + _)), (IH (0 + _)). lia.
Qed.

Lemma cart_value_cons (x : CartItem) (l : list CartItem) :
  (compute_cart_value (mkCart (x :: l))
   == unitPrice x * inject_Z (quantity x) + compute_cart_value (mkCart l))%Q.
Proof.
  unfold compute_cart_value. cbn [items fold_left]. rewrite cart_value_fold. lra.
Qed.

Lemma items_count_cons (x : CartItem) (l : list CartItem) :
  total_items_count (mkCart (x :: l)) = quantity x + total_items_count (mkCart l).
Proof.
  unfold total_items_count. cbn [items fold_left]. rewrite items_count_fold. lia.
Qed.

Lemma CartItem_validate_ok (it it' : CartItem) :
  CartItem_validate it = inr it' ->
  it' = it /\ (0 <= unitPrice it)%Q /\ 1 <= quantity it.
Proof.
  unfold CartItem_validate.
  destruct (Py.Qleb 0 (unitPrice it)) eqn:Hp; cbn [negb]; [|discriminate].
  destruct (Z.leb_spec 1 (quantity it)); cbn [negb]; [|discriminate].
  intros [= <-]. split; [reflexivity|]. split; [now apply Qleb_le | assumption].
Qed.

Lemma Cart_items_validate_ok (l l' : list CartItem) :
  Cart_items_validate l = inr l' ->
  l' = l /\ Forall (fun it => (0 <= unitPrice it)%Q /\ 1 <= quantity it) l.
Proof.
  revert l'. induction l as [|x l IH]; intros l'; cbn [Cart_items_validate].
  - intros [= <-]. split; [reflexivity | constructor].
  - destruct (CartItem_validate x) as [e|x'] eqn:Hx; [discriminate|].
    destruct (Cart_items_validate l) as [e|r] eqn:Hl; [discriminate|].
    intros [= <-]. apply CartItem_validate_ok in Hx as (-> & Hp & Hq).
    destruct (IH r eq_refl) as [-> Hall].
    split; [reflexivity|]. constructor; [now split | exact Hall].
Qed.

Lemma price_times_quantity (p : Q) (q : Z) :
  (0 <= p)%Q -> 1 <= q ->
  (0 <= p * inject_Z q)%Q /\ ((p * inject_Z q == 0)%Q -> (p == 0)%Q).
Proof.
  intros Hp Hq.
  assert (Hq' : (1 <= inject_Z q)%Q).
  { change 1%Q with (inject_Z 1). now rewrite <- Zle_Qle. }
  split; [apply Qmult_le_0_compat; lra|].
  intros H. destruct (Qeq_dec p 0) as [|Hne]; [assumption|].
  assert (Hpos : (0 < p)%Q) by (apply Qle_lteq in Hp as [|Heq]; [assumption|lra]).
  assert (0 < p * inject_Z q)%Q by (apply Qmult_lt_0_compat; lra).
  lra.
Qed.

Lemma valid_items_totals (l : list CartItem) :
  Forall (fun it => (0 <= unitPrice it)%Q /\ 1 <= quantity it) l ->
  (0 <= compute_cart_value (mkCart l))%Q
  /\ Z.of_nat (length l) <= total_items_count (mkCart l)
  /\ ((compute_cart_value (mkCart l) == 0)%Q <->
      Forall (fun it => (unitPrice it == 0)%Q) l).
Proof.
  induction 1 as [|x l [Hp Hq] Hl (IHv & IHn & IHz)].
  - split; [cbn; lra|]. split; [cbn; lia|]. split; [constructor | reflexivity].
  - destruct (price_times_quantity _ _ Hp Hq) as [Hx Hx0].
    rewrite cart_value_cons, items_count_cons.
    split; [lra|]. split; [cbn [length]; lia|]. split.
    + intros H0. constructor; [apply Hx0; lra | apply IHz; lra].
    + intros Hall. apply Forall_cons in Hall as [Hx1 Hrest].
      apply IHz in Hrest. rewrite Hx1, Hrest. lra.
Qed.

(** X5.  For a cart that passes validation (every [unitPrice >= 0], every
    [quantity >= 1]): the cart value is not negative, the item count is at
    least the number of lines, and the cart value is zero exactly when every
    unit price is zero. *)
Theorem valid_cart_totals (c c' : Cart) :
  Cart_validate c = inr c' ->
  c' = c
  /\ (0 <= compute_cart_value c)%Q
  /\ Z.of_nat (length (items c)) <= total_items_count c
  /\ ((compute_cart_value c == 0)%Q <->
      Forall (fun it => (unitPrice it == 0)%Q) (items c)).
Proof.
  unfold Cart_validate.
  destruct (Cart_items_validate (items c)) as [e|l] eqn:Hl; [discriminate|].
  intros [= <-]. apply Cart_items_validate_ok in Hl as [-> Hall].
  destruct c as [l]. cbn [items] in *. split; [reflexivity|].
  now apply valid_items_totals.
Qed.

(** The totals of [ex_cart]. *)
Lemma valid_cart_totals_witness :
  ex_cart = ex_cart
  /\ (0 <= compute_cart_value ex_cart)%Q
  /\ Z.of_nat (length (items ex_cart)) <= total_items_count ex_cart
  /\ ((compute_cart_value ex_cart == 0)%Q <->
      Forall (fun it => (unitPrice it == 0)%Q) (items ex_cart)).
Proof.
  exact (valid_cart_totals ex_cart ex_cart eq_refl).
Defined.

(** ** A cart worth nothing *)

Lemma py_min_le_l (a b : Q) : (Py.min a b <= a)%Q.
Proof. destruct (py_min_cases a b) as [[H ->] | [H ->]]; lra. Qed.

Lemma discount_of_zero (c : CouponStored) (v : Q) :
  (v == 0)%Q -> (compute_discount_amount c v <= 0)%Q.
Proof.
  intros Hv. unfold compute_discount_amount. destruct (discountType c).
  - pose proof (py_min_le_l v (discountValue c)). lra.
  - assert (Hraw : (discountValue c / 100 * v == 0)%Q) by (rewrite Hv; ring).
    destruct (maxDiscountAmount c) as [m|]; [|lra].
    pose proof (py_min_le_l (discountValue c / 100 * v) m). lra.
Qed.

Lemma passes_gates_positive (user : UserContext) (cart : Cart) (now : Z)
    (c : CouponStored) :
  passes_gates user cart now c = true ->
  (0 < compute_discount_amount c (compute_cart_value cart))%Q.
Proof.
  unfold passes_gates. rewrite !andb_true_iff, negb_true_iff.
  intros (_ & H). now apply Qleb_gt.
Qed.

Lemma surviving_nil_of_zero (user : UserContext) (cart : Cart) (clock : nat -> Z)
    (its : list (string * CouponStored)) (n : nat) :
  (compute_cart_value cart == 0)%Q ->
  surviving user cart clock n its = [].
Proof.
  intros Hv. destruct (surviving user cart clock n its) as [|[c d] l] eqn:E;
    [reflexivity|].
  assert (Hin : In (c, d) (surviving user cart clock n its)) by (rewrite E; now left).
  apply surviving_In in Hin as (_ & m & _ & Hg & _).
  apply passes_gates_positive in Hg.
  pose proof (discount_of_zero c _ Hv). lra.
Qed.

(** X7.  With a cart whose value is zero (an empty cart, or only free
    items) no coupon of any store is a candidate: [best_coupon] answers "No
    eligible coupons" with amount 0, and [redeem] fails for every code and
    changes no coupon or ledger. *)
Theorem zero_value_cart_gets_nothing (req : BestCouponRequest) (w : World) :
  (compute_cart_value (cart req) == 0)%Q ->
  fst (best_coupon req w)
  = inr (mkBestCouponResponse None (Some 0%Q) (Some "No eligible coupons"))
  /\ forall code0, exists e w',
       redeem code0 req w = (inl e, w') /\ coupons w' = coupons w.
Proof.
  intros Hv. split.
  - rewrite best_coupon_eq. cbn [fst]. now rewrite surviving_nil_of_zero.
  - intros code0. rewrite redeem_unfold.
    destruct (dict_get (normalize code0) (coupons w)) as [c|];
      [|eexists _, _; split; reflexivity].
    pose proof (discount_of_zero c _ Hv) as Hd. apply Qleb_le in Hd. rewrite Hd.
    repeat (match goal with |- context [if ?b then _ else _] => destruct b end;
            try (eexists _, _; split; reflexivity)).
Qed.

(** An empty cart against a store that holds WELCOME100. *)
Lemma zero_value_cart_witness :
  fst (best_coupon (mkRequest ex_user (mkCart [])) (ex_welcome_world (fun _ => 5)))
  = inr (mkBestCouponResponse None (Some 0%Q) (Some "No eligible coupons"))
  /\ forall code0, exists e w',
       redeem code0 (mkRequest ex_user (mkCart [])) (ex_welcome_world (fun _ => 5))
       = (inl e, w')
       /\ coupons w' = coupons (ex_welcome_world (fun _ => 5)).
Proof.
  apply (zero_value_cart_gets_nothing (mkRequest ex_user (mkCart []))
           (ex_welcome_world (fun _ => 5))).
  reflexivity.
Defined.

(** ** [best_coupon] and [redeem] together *)

Lemma In_dict_get {V} (k : string) (v : V) (d : list (string * V)) :
  NoDup (map fst d) -> In (k, v) d -> dict_get k d = Some v.
Proof.
  induction d as [|[k' v'] d IH]; cbn [map fst dict_get]; [intros _ []|].
  intros Hnd Hin. apply NoDup_cons in Hnd as [Hk Hnd].
  destruct Hin as [[= -> ->]|Hin]; [now rewrite String.eqb_refl|].
  destruct (String.eqb_spec k k') as [->|Hne]; [|now apply IH].
  exfalso. apply Hk, list_elem_of_In. change k' with (fst (k', v)). now apply in_map.
Qed.

Lemma surviving_complete (user : UserContext) (cart : Cart) (clock : nat -> Z)
    (now : Z) (its : list (string * CouponStored)) (k : string) (c : CouponStored) :
  (forall m, clock m = now) ->
  In (k, c) its ->
  passes_gates user cart now c = true ->
  forall n,
    In (c, Py.round2 (compute_discount_amount c (compute_cart_value cart)))
       (surviving user cart clock n its).
Proof.
  intros Hclock Hin Hg. induction its as [|[k0 c0] rest IH]; intros n; [destruct Hin|].
  cbn [surviving]. apply in_app_iff. destruct Hin as [[= -> ->]|Hin].
  - left. rewrite Hclock, Hg. now left.
  - right. now apply IH.
Qed.

Lemma redeem_success_gates (code0 : string) (req : BestCouponRequest) (w w' : World)
    (v : Value) :
  redeem code0 req w = (inr v, w') ->
  exists c,
    dict_get (normalize code0) (coupons w) = Some c
    /\ passes_gates (user req) (cart req) (next_instant w) c = true
    /\ v = redeemed c (Py.round2 (compute_discount_amount c
                                    (compute_cart_value (cart req))))
    /\ w' = after_redeem (normalize code0) c (userId (user req)) w.
Proof.
  rewrite redeem_unfold. unfold passes_gates.
  destruct (dict_get (normalize code0) (coupons w)) as [c|]; [|discriminate].
  destruct (within_dates c (next_instant w)) eqn:E1; cbn [negb]; [|discriminate].
  destruct (usage_within_limit c (userId (user req))) eqn:E2; cbn [negb];
    [|discriminate].
  destruct (eligibility_satisfied c (user req) (cart req)) eqn:E3; cbn [negb];
    [|discriminate].
  destruct (Py.Qleb _ 0) eqn:E4; [discriminate|].
  intros [= <- <-]. exists c. rewrite E1, E2, E3, E4. repeat split.
Qed.

Lemma redeem_of_gates (code0 : string) (req : BestCouponRequest) (w : World)
    (c : CouponStored) :
  dict_get (normalize code0) (coupons w) = Some c ->
  passes_gates (user req) (cart req) (next_instant w) c = true ->
  redeem code0 req w
  = (inr (redeemed c (Py.round2 (compute_discount_amount c
                                   (compute_cart_value (cart req))))),
     after_redeem (normalize code0) c (userId (user req)) w).
Proof.
  intros Hc Hg. rewrite redeem_unfold, Hc. unfold passes_gates in Hg.
  rewrite !andb_true_iff, negb_true_iff in Hg.
  destruct Hg as (((-> & ->) & ->) & ->). reflexivity.
Qed.

Lemma best_response_amount (cands : list (CouponStored * Q)) :
  cands <> [] ->
  exists best_c best_d,
    In (best_c, best_d) cands
    /\ best_response cands
       = mkBestCouponResponse (Some (public_dict best_c)) (Some best_d) (Some "OK")
    /\ forall p, In p cands -> (snd p <= best_d)%Q.
Proof.
  destruct cands as [|first l]; [contradiction|]. intros _.
  cbn [best_response]. destruct (sort_candidates_hd first l) as [Hin Hleast].
  destruct (hd first (sort_candidates (first :: l))) as [best_c best_d].
  exists best_c, best_d. split; [exact Hin|]. split; [reflexivity|].
  intros [c d] Hp. specialize (Hleast _ Hp). cbn [snd].
  unfold sort_key, key_lt in Hleast.
  destruct (Qlt_le_dec best_d d) as [Hlt|Hle]; [|exact Hle].
  exfalso. apply Hleast. left. lra.
Qed.

(** X8.  In a store kept by the service and with the clock held at [now],
    the coupon [best_coupon] returns can be redeemed: a [redeem] of its stored
    code by the same user with the same cart succeeds, answers with the same
    amount, and adds one to that user's count on that coupon. *)
Theorem best_coupon_winner_is_redeemable
    (req : BestCouponRequest) (w w1 : World) (now : Z) (r : BestCouponResponse)
    (d : list (string * Value)) :
  store_ok (coupons w) ->
  (forall n, wall_clock w n = now) ->
  best_coupon req w = (inr r, w1) ->
  coupon r = Some d ->
  exists c a w2,
    d = public_dict c
    /\ discountAmount r = Some a
    /\ dict_get (normalize (code c)) (coupons w) = Some c
    /\ redeem (code c) req w1 = (inr (redeemed c a), w2)
    /\ ledger_count (coupons w2) (normalize (code c)) (userId (user req))
       = ledger_count (coupons w) (normalize (code c)) (userId (user req)) + 1.
Proof.
  intros Hok Hclock. rewrite best_coupon_eq. intros [= <- <-] Hd.
  set (cands := surviving _ _ _ _ _) in *.
  assert (Hne : cands <> []) by (intros E; rewrite E in Hd; discriminate).
  destruct (best_response_amount cands Hne) as (c & a & Hin & Hresp & _).
  rewrite Hresp in Hd |- *. cbn [coupon discountAmount] in *.
  injection Hd as <-.
  apply surviving_In in Hin as (k & m & Hin & Hg & Ha).
  destruct (store_ok_In _ _ _ Hok Hin) as [Hk _].
  assert (Hget : dict_get (normalize (code c)) (coupons w) = Some c).
  { rewrite <- Hk. apply In_dict_get; [apply Hok | exact Hin]. }
  rewrite Hclock in Hg.
  exists c, a. eexists. split; [reflexivity|]. split; [reflexivity|].
  split; [exact Hget|]. split.
  - rewrite Ha. apply redeem_of_gates; [exact Hget|].
    unfold next_instant. cbn [advance_clock wall_clock clock_reads].
    now rewrite Hclock.
  - now apply (ledger_count_after_redeem _ _ _ (advance_clock _ w)).
Qed.

(** X9.  With the clock held at [now], whenever a [redeem] succeeds,
    [best_coupon] for the same user and cart names a winner, and the amount
    it returns is at least the redeemed amount: it never offers less than a
    coupon the user could redeem. *)
Theorem best_coupon_dominates_redeem
    (code0 : string) (req : BestCouponRequest) (w w' : World) (now : Z)
    (c : CouponStored) (a : Q) :
  (forall n, wall_clock w n = now) ->
  redeem code0 req w = (inr (redeemed c a), w') ->
  exists d best,
    fst (best_coupon req w)
    = inr (mkBestCouponResponse (Some d) (Some best) (Some "OK"))
    /\ (a <= best)%Q.
Proof.
  intros Hclock Hr.
  apply redeem_success_gates in Hr as (c' & Hc & Hg & Hv & _).
  injection Hv as Hcode ->.
  unfold next_instant in Hg. rewrite Hclock in Hg.
  rewrite best_coupon_eq. cbn [fst].
  set (cands := surviving _ _ _ _ _).
  assert (Hin : In (c', Py.round2 (compute_discount_amount c'
                                     (compute_cart_value (cart req)))) cands).
  { eapply surviving_complete; [exact Hclock | apply (dict_get_In _ _ _ Hc) | exact Hg]. }
  assert (Hne : cands <> []) by (intros E; rewrite E in Hin; destruct Hin).
  destruct (best_response_amount cands Hne) as (bc & bd & _ & Hresp & Hmax).
  exists (public_dict bc), bd. split; [now rewrite Hresp|].
  exact (Hmax _ Hin).
Qed.

(** WELCOME100 wins for [ex_user] and is then redeemed. *)
Lemma best_coupon_winner_is_redeemable_witness :
  exists c a w2,
    public_dict (ex_stored ex_welcome) = public_dict c
    /\ discountAmount
         (mkBestCouponResponse (Some (public_dict (ex_stored ex_welcome)))
            (Some (Py.round2 100)) (Some "OK")) = Some a
    /\ dict_get (normalize (code c)) (coupons (ex_welcome_world (fun _ => 5))) = Some c
    /\ redeem (code c) ex_req (snd (best_coupon ex_req (ex_welcome_world (fun _ => 5))))
       = (inr (redeemed c a), w2)
    /\ ledger_count (coupons w2) (normalize (code c)) (userId (user ex_req))
       = ledger_count (coupons (ex_welcome_world (fun _ => 5)))
           (normalize (code c)) (userId (user ex_req)) + 1.
Proof.
  assert (Hok : store_ok (coupons (ex_welcome_world (fun _ => 5)))).
  { apply reachable_store_ok. unfold ex_welcome_world, run. cbn [fold_left].
    apply reachable_call. now apply reachable_init. }
  refine (best_coupon_winner_is_redeemable ex_req (ex_welcome_world (fun _ => 5))
            (snd (best_coupon ex_req (ex_welcome_world (fun _ => 5)))) 5
            (mkBestCouponResponse (Some (public_dict (ex_stored ex_welcome)))
               (Some (Py.round2 100)) (Some "OK"))
            (public_dict (ex_stored ex_welcome)) Hok (fun _ => eq_refl) _ eq_refl).
  vm_compute. reflexivity.
Defined.

(** A redemption of WELCOME100 and the offer for the same request. *)
Lemma best_coupon_dominates_redeem_witness :
  exists d best,
    fst (best_coupon ex_req (ex_welcome_world (fun _ => 5)))
    = inr (mkBestCouponResponse (Some d) (Some best) (Some "OK"))
    /\ (Py.round2 100 <= best)%Q.
Proof.
  refine (best_coupon_dominates_redeem "welcome100" ex_req
            (ex_welcome_world (fun _ => 5))
            (snd (redeem "welcome100" ex_req (ex_welcome_world (fun _ => 5)))) 5
            (ex_stored ex_welcome) (Py.round2 100) (fun _ => eq_refl) _).
  vm_compute. reflexivity.
Defined.

(** ** The eligibility rules, one by one *)

Lemma contains_spec (l : list string) (x : option string) :
  Py.contains l x = true <-> exists t, x = Some t /\ In t l.
Proof.
  unfold Py.contains. destruct x as [s|].
  - rewrite existsb_exists. split.
    + intros (t & Hin & Heq). apply String.eqb_eq in Heq. subst t. now exists s.
    + intros (t & [= <-] & Hin). exists s. split; [exact Hin | apply String.eqb_refl].
  - split; [discriminate | intros (t & H & _); discriminate].
Qed.

Lemma intersects_spec (l1 l2 : list string) :
  intersects (list_to_set l1) (list_to_set l2) = true
  <-> exists x, In x l1 /\ In x l2.
Proof.
  unfold intersects. rewrite bool_decide_eq_true. split.
  - intros Hne. apply set_choose_L in Hne as [x Hx].
    apply elem_of_intersection in Hx as [H1 H2].
    rewrite elem_of_list_to_set in H1, H2.
    exists x. split; now apply list_elem_of_In.
  - intros (x & H1 & H2) Hempty.
    assert (Hx : x ∈ (list_to_set l1 ∩ list_to_set l2 : gset string)).
    { apply elem_of_intersection.
      split; apply elem_of_list_to_set; now apply list_elem_of_In. }
    rewrite Hempty in Hx. now apply not_elem_of_empty in Hx.
Qed.

Lemma cart_has_category (cart : Cart) (l : list string) :
  (exists x, In x (categories_in_cart cart) /\ In x l)
  <-> exists it, In it (items cart) /\ In (category it) l.
Proof.
  unfold categories_in_cart. split.
  - intros (x & Hx & Hl). apply in_map_iff in Hx as (it & <- & Hit). now exists it.
  - intros (it & Hit & Hl). exists (category it). split; [now apply in_map | exact Hl].
Qed.

Lemma truthy_list_spec {A} (x : option (list A)) :
  Py.truthy_list x = true <-> exists l, x = Some l /\ l <> [].
Proof.
  destruct x as [[|a l]|]; cbn; split; try discriminate.
  - intros (l & [= <-] & H). contradiction.
  - intros _. now exists (a :: l).
  - intros (l' & [= <-] & _). reflexivity.
  - intros (l & H & _). discriminate.
Qed.

Lemma eligibility_satisfied_andb (c : CouponStored) (e : Eligibility)
    (user : UserContext) (cart : Cart) :
  eligibility c = Some e ->
  eligibility_satisfied c user cart
  = negb (Py.truthy_list (allowedUserTiers e)
          && negb (Py.contains (default [] (allowedUserTiers e)) (userTier user)))
    && negb (match minLifetimeSpend e with
             | Some m => Py.Qltb (Py.or0Q (lifetimeSpend user)) m
             | None => false
             end)
    && negb (match minOrdersPlaced e with
             | Some m => Py.or0Z (ordersPlaced user) <? m
             | None => false
             end)
    && negb (Py.truthy_bool (firstOrderOnly e)
             && negb (Py.or0Z (ordersPlaced user) =? 0))
    && negb (Py.truthy_list (allowedCountries e)
             && negb (Py.contains (default [] (allowedCountries e)) (country user)))
    && negb (match minCartValue e with
             | Some m => Py.Qltb (compute_cart_value cart) m
             | None => false
             end)
    && negb (Py.truthy_list (applicableCategories e)
             && negb (intersects (list_to_set (categories_in_cart cart))
                        (list_to_set (default [] (applicableCategories e)))))
    && negb (Py.truthy_list (excludedCategories e)
             && intersects (list_to_set (categories_in_cart cart))
                  (list_to_set (default [] (excludedCategories e))))
    && negb (match minItemsCount e with
             | Some m => total_items_count cart <? m
             | None => false
             end).
Proof.
  intros He. unfold eligibility_satisfied. rewrite He.
  repeat (match goal with
          | |- (if ?b then false else _) = _ => destruct b; cbn [negb andb]
          end; [reflexivity|]).
  reflexivity.
Qed.

(** X10.  [eligibility_satisfied] is the conjunction of the rules that are
    present: a coupon without a rule set passes; with one, it passes exactly
    when the user's tier is in a non-empty tier list, lifetime spend and
    orders placed reach the minima, a first-order-only coupon meets a user
    with no order, the country is in a non-empty country list, the cart value
    and the item count reach the minima, some cart item has a category of a
    non-empty applicable list, and no cart item has an excluded category.
    An absent tier or country never matches a non-empty list. *)
Theorem eligibility_satisfied_rules (c : CouponStored) (user : UserContext) (cart : Cart) :
  (eligibility c = None -> eligibility_satisfied c user cart = true)
  /\ forall e, eligibility c = Some e ->
       (eligibility_satisfied c user cart = true <->
        (forall l, allowedUserTiers e = Some l -> l <> [] ->
           exists t, userTier user = Some t /\ In t l)
        /\ (forall m, minLifetimeSpend e = Some m ->
              (m <= Py.or0Q (lifetimeSpend user))%Q)
        /\ (forall m, minOrdersPlaced e = Some m -> m <= Py.or0Z (ordersPlaced user))
        /\ (firstOrderOnly e = Some true -> Py.or0Z (ordersPlaced user) = 0)
        /\ (forall l, allowedCountries e = Some l -> l <> [] ->
              exists t, country user = Some t /\ In t l)
        /\ (forall m, minCartValue e = Some m -> (m <= compute_cart_value cart)%Q)
        /\ (forall l, applicableCategories e = Some l -> l <> [] ->
              exists it, In it (items cart) /\ In (category it) l)
        /\ (forall l, excludedCategories e = Some l ->
              forall it, In it (items cart) -> ~ In (category it) l)
        /\ (forall m, minItemsCount e = Some m -> m <= total_items_count cart)).
Proof.
  split; [intros He; unfold eligibility_satisfied; now rewrite He|].
  intros e He. rewrite (eligibility_satisfied_andb c e user cart He).
  rewrite !andb_true_iff, !negb_true_iff, !andb_false_iff, !negb_false_iff.
  split.
  - intros ((((((((H1 & H2) & H3) & H4) & H5) & H6) & H7) & H8) & H9).
    repeat split.
    + intros l Hl Hne. rewrite Hl in H1. cbn [default from_option Datatypes.id] in H1.
      destruct H1 as [H1|H1]; [|now apply contains_spec].
      destruct l; [contradiction | discriminate].
    + intros m Hm. rewrite Hm in H2. now apply Qltb_ge.
    + intros m Hm. rewrite Hm in H3. now apply Z.ltb_ge.
    + intros Hf. rewrite Hf in H4. cbn in H4.
      destruct H4 as [H4|H4]; [discriminate | now apply Z.eqb_eq].
    + intros l Hl Hne. rewrite Hl in H5. cbn [default from_option Datatypes.id] in H5.
      destruct H5 as [H5|H5]; [|now apply contains_spec].
      destruct l; [contradiction | discriminate].
    + intros m Hm. rewrite Hm in H6. now apply Qltb_ge.
    + intros l Hl Hne. rewrite Hl in H7. cbn [default from_option Datatypes.id] in H7.
      destruct H7 as [H7|H7]; [destruct l; [contradiction | discriminate]|].
      now apply cart_has_category, intersects_spec.
    + intros l Hl it Hit Hin. rewrite Hl in H8.
      cbn [default from_option Datatypes.id] in H8.
      assert (Hx : intersects (list_to_set (categories_in_cart cart)) (list_to_set l) = true).
      { apply intersects_spec, cart_has_category. now exists it. }
      destruct H8 as [H8|H8]; [|congruence].
      destruct l; [destruct Hin | discriminate].
    + intros m Hm. rewrite Hm in H9. now apply Z.ltb_ge.
  - intros (H1 & H2 & H3 & H4 & H5 & H6 & H7 & H8 & H9).
    repeat split.
    + destruct (allowedUserTiers e) as [[|x l]|]; cbn; auto.
      right. apply contains_spec. now apply (H1 (x :: l)).
    + destruct (minLifetimeSpend e) as [m|]; [|reflexivity]. now apply Qltb_ge, H2.
    + destruct (minOrdersPlaced e) as [m|]; [|reflexivity]. now apply Z.ltb_ge, H3.
    + destruct (firstOrderOnly e) as [[|]|]; cbn; auto.
      right. now apply Z.eqb_eq, H4.
    + destruct (allowedCountries e) as [[|x l]|]; cbn; auto.
      right. apply contains_spec. now apply (H5 (x :: l)).
    + destruct (minCartValue e) as [m|]; [|reflexivity]. now apply Qltb_ge, H6.
    + destruct (applicableCategories e) as [[|x l]|]; cbn [Py.truthy_list]; auto.
      right. cbn [default from_option Datatypes.id].
      apply intersects_spec, cart_has_category. now apply (H7 (x :: l)).
    + destruct (excludedCategories e) as [l|]; cbn [Py.truthy_list]; auto.
      cbn [default from_option Datatypes.id].
      destruct (intersects (list_to_set (categories_in_cart cart)) (list_to_set l)) eqn:Hx;
        [|now right].
      apply intersects_spec, cart_has_category in Hx as (it & Hit & Hin).
      exfalso. exact (H8 l eq_refl it Hit Hin).
    + destruct (minItemsCount e) as [m|]; [|reflexivity]. now apply Z.ltb_ge, H9.
Qed.

(** ** Seeding *)

Lemma CouponIn_validate_valid (raw : CouponIn) :
  (0 < discountValue raw)%Q -> startDate raw <= endDate raw ->
  CouponIn_validate raw = inr raw.
Proof.
  intros Hd Hdates. unfold CouponIn_validate, end_after_start.
  apply Qltb_lt in Hd. rewrite Hd. cbn [negb].
  destruct (Z.ltb_spec (endDate raw) (startDate raw)); [lia|]. now destruct raw.
Qed.

Lemma seed_coupons_empty (w : World) :
  coupons w = [] ->
  seed_coupons w =
  (inr tt,
   mkWorld
     [ ("WELCOME100",
        mkCouponStored (seed_welcome100 (next_instant w))
          (uuid_source w (uuid_draws w)) ∅);
       ("GOLD10",
        mkCouponStored (seed_gold10 (next_instant w))
          (uuid_source w (S (uuid_draws w))) ∅);
       ("FASHION5",
        mkCouponStored (seed_fashion5 (next_instant w))
          (uuid_source w (S (S (uuid_draws w)))) ∅) ]
     (wall_clock w) (S (clock_reads w)) (uuid_source w) (S (S (S (uuid_draws w))))).
Proof.
  intros Hempty. unfold seed_coupons, next_instant.
  cbv [mbind M_bind mret M_ret get_coupons now_utc]. rewrite Hempty.
  set (now := wall_clock w (clock_reads w)).
  fold (seed_welcome100 now) (seed_gold10 now) (seed_fashion5 now).
  unfold CouponIn_new.
  rewrite !CouponIn_validate_valid;
    try (cbn; unfold timedelta_days; lia); try reflexivity.
  cbv [mret M_ret try_pass]. cbn beta iota.
  rewrite (create_coupon_unfold (seed_welcome100 now)).
  cbn [coupons uuid_source uuid_draws wall_clock clock_reads]. rewrite Hempty.
  change (normalize (code (seed_welcome100 now))) with "WELCOME100".
  cbn [dict_contains dict_get dict_set]. cbn beta iota zeta.
  rewrite (create_coupon_unfold (seed_gold10 now)).
  cbn [coupons uuid_source uuid_draws wall_clock clock_reads].
  change (normalize (code (seed_gold10 now))) with "GOLD10".
  change (dict_contains "GOLD10" [("WELCOME100", ?c)]) with false.
  cbn beta iota zeta.
  rewrite (create_coupon_unfold (seed_fashion5 now)).
  cbn [coupons uuid_source uuid_draws wall_clock clock_reads].
  change (normalize (code (seed_fashion5 now))) with "FASHION5".
  reflexivity.
Qed.

Lemma seeded_keys_NoDup : NoDup ["WELCOME100"; "GOLD10"; "FASHION5"].
Proof.
  repeat (apply NoDup_cons_2;
          [intros H; repeat (apply elem_of_cons in H as [H|H]; [discriminate H|]);
           now apply elem_of_nil in H|]).
  apply NoDup_nil_2.
Qed.

(** X11.  [seed_coupons] never raises.  On a store that holds a coupon it
    does nothing at all (no clock reading, no identifier drawn); so seeding
    twice is seeding once, and seeding keeps the store invariant. *)
Theorem seed_coupons_fills_only_empty_store (w : World) :
  fst (seed_coupons w) = inr tt
  /\ (coupons w <> [] -> seed_coupons w = (inr tt, w))
  /\ coupons (snd (seed_coupons w)) <> []
  /\ snd (seed_coupons (snd (seed_coupons w))) = snd (seed_coupons w)
  /\ (store_ok (coupons w) -> store_ok (coupons (snd (seed_coupons w)))).
Proof.
  assert (Hfull : forall w0, coupons w0 <> [] -> seed_coupons w0 = (inr tt, w0)).
  { intros w0 Hne. unfold seed_coupons. cbv [mbind M_bind mret M_ret get_coupons].
    destruct (coupons w0); [contradiction | reflexivity]. }
  assert (Hne : coupons (snd (seed_coupons w)) <> []).
  { destruct (coupons w) eqn:E.
    - rewrite (seed_coupons_empty w E). discriminate.
    - rewrite Hfull; cbn [snd]; rewrite E; discriminate. }
  split; [|split; [exact (Hfull w)|split; [exact Hne|split]]].
  - destruct (coupons w) eqn:E.
    + now rewrite (seed_coupons_empty w E).
    + rewrite Hfull; [reflexivity | rewrite E; discriminate].
  - now rewrite (Hfull _ Hne).
  - intros Hok. destruct (coupons w) eqn:E.
    + rewrite (seed_coupons_empty w E). cbn [snd coupons]. split.
      * exact seeded_keys_NoDup.
      * repeat constructor.
      * repeat constructor; cbn [snd usage_count]; intros uid n;
          rewrite lookup_empty; discriminate.
    + rewrite Hfull; cbn [snd]; rewrite E; [exact Hok | discriminate].
Qed.

(** X12.  Seeding an empty store at instant [now] reads the clock once and
    leaves exactly WELCOME100, GOLD10 and FASHION5, in this order, each under
    its own code, with an empty ledger, a positive discount value and a
    window that starts at [now]; every one of them is inside its date window
    at every instant from [now] to ten days later. *)
Theorem seed_coupons_on_empty_store (w : World) :
  coupons w = [] ->
  let w' := snd (seed_coupons w) in
  let now := next_instant w in
  map fst (coupons w') = ["WELCOME100"; "GOLD10"; "FASHION5"]
  /\ clock_reads w' = S (clock_reads w)
  /\ store_ok (coupons w')
  /\ (forall k c, In (k, c) (coupons w') ->
        k = code c /\ usage_count c = ∅ /\ (0 < discountValue c)%Q
        /\ startDate c = now
        /\ forall t, now <= t <= now + timedelta_days 10 -> within_dates c t = true).
Proof.
  intros Hempty w' now. subst w'. rewrite (seed_coupons_empty w Hempty).
  cbn [snd coupons clock_reads]. fold now.
  split; [reflexivity|]. split; [reflexivity|]. split.
  - split.
    + exact seeded_keys_NoDup.
    + repeat constructor.
    + repeat constructor; cbn [snd usage_count]; intros uid n;
        rewrite lookup_empty; discriminate.
  - intros k c [[= <- <-]|[[= <- <-]|[[= <- <-]|[]]]];
      (split; [reflexivity|]; split; [reflexivity|]; split; [reflexivity|];
       split; [reflexivity|]; intros t Ht; apply within_dates_spec;
       cbn; unfold timedelta_days in *; lia).
Qed.

(** Seeding the empty sample world. *)
Lemma seed_coupons_on_empty_store_witness :
  map fst (coupons (snd (seed_coupons (ex_world (fun _ => 5)))))
  = ["WELCOME100"; "GOLD10"; "FASHION5"]
  /\ clock_reads (snd (seed_coupons (ex_world (fun _ => 5))))
     = S (clock_reads (ex_world (fun _ => 5)))
  /\ store_ok (coupons (snd (seed_coupons (ex_world (fun _ => 5)))))
  /\ (forall k c, In (k, c) (coupons (snd (seed_coupons (ex_world (fun _ => 5))))) ->
        k = code c /\ usage_count c = ∅ /\ (0 < discountValue c)%Q
        /\ startDate c = next_instant (ex_world (fun _ => 5))
        /\ forall t,
             next_instant (ex_world (fun _ => 5)) <= t
             <= next_instant (ex_world (fun _ => 5)) + timedelta_days 10 ->
             within_dates c t = true).
Proof.
  exact (seed_coupons_on_empty_store (ex_world (fun _ => 5)) eq_refl).
Defined.

(** ** What a redemption leaves untouched *)

(** X13.  A successful [redeem] reads the clock once, draws no identifier,
    keeps the keys of the store and their order, leaves every other coupon as
    it was, and changes of the redeemed coupon only the count of the
    redeeming user: its definition, its [id] and every other user's count
    stay. *)
Theorem redeem_changes_one_count
    (code0 : string) (req : BestCouponRequest) (w w' : World) (v : Value) :
  redeem code0 req w = (inr v, w') ->
  map fst (coupons w') = map fst (coupons w)
  /\ clock_reads w' = S (clock_reads w)
  /\ wall_clock w' = wall_clock w
  /\ uuid_draws w' = uuid_draws w
  /\ (forall k, k <> normalize code0 ->
        dict_get k (coupons w') = dict_get k (coupons w))
  /\ exists c c',
       dict_get (normalize code0) (coupons w) = Some c
       /\ dict_get (normalize code0) (coupons w') = Some c'
       /\ base c' = base c /\ id c' = id c
       /\ usage_count c' !! userId (user req)
          = Some (default 0 (usage_count c !! userId (user req)) + 1)
       /\ forall uid, uid <> userId (user req) ->
            usage_count c' !! uid = usage_count c !! uid.
Proof.
  intros Hr. apply redeem_success_gates in Hr as (c & Hc & _ & _ & ->).
  unfold after_redeem. cbn [coupons clock_reads wall_clock uuid_draws].
  split; [apply dict_set_keys; congruence|].
  split; [reflexivity|]. split; [reflexivity|]. split; [reflexivity|].
  split; [intros k Hk; apply dict_get_set_ne; congruence|].
  eexists c, _. split; [exact Hc|]. split; [apply dict_get_set_eq|].
  cbn [base id usage_count]. split; [reflexivity|]. split; [reflexivity|].
  split; [apply lookup_insert_eq|].
  intros uid Hu. apply lookup_insert_ne. congruence.
Qed.

(** A redemption of WELCOME100. *)
Lemma redeem_changes_one_count_witness :
  map fst (coupons (snd (redeem "welcome100" ex_req (ex_welcome_world (fun _ => 5)))))
  = map fst (coupons (ex_welcome_world (fun _ => 5)))
  /\ clock_reads (snd (redeem "welcome100" ex_req (ex_welcome_world (fun _ => 5))))
     = S (clock_reads (ex_welcome_world (fun _ => 5))).
Proof.
  refine (let H := redeem_changes_one_count "welcome100" ex_req
                     (ex_welcome_world (fun _ => 5))
                     (snd (redeem "welcome100" ex_req (ex_welcome_world (fun _ => 5))))
                     (redeemed (ex_stored ex_welcome) (Py.round2 100)) _ in
          conj (proj1 H) (proj1 (proj2 H))).
  vm_compute. reflexivity.
Defined.

(** X14.  After a successful [redeem], the same request made again inside
    the date window succeeds exactly when the coupon has no usage limit or
    the limit exceeds the new count; it then answers with the same body.
    Otherwise it fails with usage-limit-reached.  Eligibility and amount do
    not depend on the ledger. *)
Theorem redeem_again
    (code0 : string) (req : BestCouponRequest) (w w1 : World) (v : Value)
    (c : CouponStored) :
  redeem code0 req w = (inr v, w1) ->
  dict_get (normalize code0) (coupons w) = Some c ->
  within_dates c (next_instant w1) = true ->
  let count := default 0 (usage_count c !! userId (user req)) in
  (match usageLimitPerUser c with
   | None => True
   | Some limit => count + 1 < limit
   end ->
   exists w2,
     redeem code0 req w1 = (inr v, w2)
     /\ ledger_count (coupons w2) (normalize code0) (userId (user req)) = count + 2)
  /\ (forall limit, usageLimitPerUser c = Some limit -> limit <= count + 1 ->
        redeem code0 req w1 = (inl usage_limit_reached, advance_clock 1 w1)).
Proof.
  intros Hr Hc Hdates count.
  apply redeem_success_gates in Hr as (c0 & Hc0 & Hg & -> & ->).
  rewrite Hc in Hc0. injection Hc0 as <-.
  unfold passes_gates in Hg. rewrite !andb_true_iff, negb_true_iff in Hg.
  destruct Hg as (((_ & _) & Helig) & Hpos).
  set (k := normalize code0) in *. set (uid := userId (user req)) in *.
  set (c' := mkCouponStored c (id c) (<[uid := count + 1]> (usage_count c))).
  assert (Hc' : dict_get k (coupons (after_redeem k c uid w)) = Some c').
  { unfold after_redeem. cbn [coupons]. apply dict_get_set_eq. }
  assert (Hcount' : default 0 (usage_count c' !! uid) = count + 1).
  { subst c'. cbn [usage_count]. now rewrite lookup_insert_eq. }
  rewrite redeem_unfold. fold k uid. rewrite Hc'.
  change (within_dates c' ?n) with (within_dates c n). rewrite Hdates.
  change (eligibility_satisfied c' ?u ?ca) with (eligibility_satisfied c u ca).
  change (compute_discount_amount c' ?x) with (compute_discount_amount c x).
  rewrite Helig, Hpos. cbn [negb].
  unfold usage_within_limit. change (usageLimitPerUser c') with (usageLimitPerUser c).
  rewrite Hcount'. split.
  - intros Hlim. destruct (usageLimitPerUser c) as [limit|].
    + apply Z.ltb_lt in Hlim. rewrite Hlim. cbn [negb].
      eexists. split; [reflexivity|].
      rewrite (ledger_count_after_redeem k uid c'); [|exact Hc'].
      unfold ledger_count. rewrite Hc', Hcount'. lia.
    + cbn [negb]. eexists. split; [reflexivity|].
      rewrite (ledger_count_after_redeem k uid c'); [|exact Hc'].
      unfold ledger_count. rewrite Hc', Hcount'. lia.
  - intros limit Hl Hle. rewrite Hl. apply Z.ltb_ge in Hle. now rewrite Hle.
Qed.

(** WELCOME100 allows one use: the second attempt is refused. *)
Lemma redeem_again_witness :
  redeem "welcome100" ex_req
    (snd (redeem "welcome100" ex_req (ex_welcome_world (fun _ => 5))))
  = (inl usage_limit_reached,
     advance_clock 1 (snd (redeem "welcome100" ex_req (ex_welcome_world (fun _ => 5))))).
Proof.
  refine (proj2 (redeem_again "welcome100" ex_req (ex_welcome_world (fun _ => 5))
                   (snd (redeem "welcome100" ex_req (ex_welcome_world (fun _ => 5))))
                   (redeemed (ex_stored ex_welcome) (Py.round2 100))
                   (ex_stored ex_welcome) _ _ _) 1 _ _);
    vm_compute; try reflexivity. discriminate.
Defined.

(** ** Listing and login *)

Lemma dict_set_map {V W} (f : V -> W) (k : string) (v v' : V) (d : list (string * V)) :
  dict_get k d = Some v -> f v' = f v ->
  map (fun kv => f (snd kv)) (dict_set k v' d) = map (fun kv => f (snd kv)) d.
Proof.
  intros Hk Hf. induction d as [|[k0 v0] d IH]; cbn [dict_get dict_set map] in *;
    [discriminate|].
  destruct (String.eqb_spec k k0) as [->|Hne]; cbn [map snd].
  - injection Hk as ->. now rewrite Hf.
  - now rewrite IH.
Qed.

Lemma list_coupons_eq (w : World) :
  list_coupons w = (inr (map snd (coupons w)), w).
Proof. reflexivity. Qed.

(** X15.  [list_coupons] never raises and changes nothing; it returns the
    stored coupons in creation order, ledgers included.  A successful
    [create_coupon] appends the new coupon to the listing; a successful
    [redeem] keeps the listing's length and every coupon's definition and
    [id], and the listing then shows the redeemed coupon with the user's count
    raised by one. *)
Theorem list_coupons_follows_store (w : World) :
  (exists l, list_coupons w = (inr l, w) /\ length l = length (coupons w))
  /\ (forall body stored w' l,
        create_coupon body w = (inr stored, w') ->
        fst (list_coupons w) = inr l ->
        fst (list_coupons w') = inr (l ++ [stored]))
  /\ (forall code0 req v w' l,
        redeem code0 req w = (inr v, w') ->
        fst (list_coupons w) = inr l ->
        exists l' c',
          fst (list_coupons w') = inr l'
          /\ map base l' = map base l /\ map id l' = map id l
          /\ In c' l'
          /\ dict_get (normalize code0) (coupons w') = Some c'
          /\ default 0 (usage_count c' !! userId (user req))
             = ledger_count (coupons w) (normalize code0) (userId (user req)) + 1).
Proof.
  split; [|split].
  - eexists. split; [reflexivity|]. apply length_map.
  - intros body stored w' l. rewrite create_coupon_unfold. cbn zeta.
    unfold dict_contains.
    destruct (dict_get (normalize (code body)) (coupons w)) eqn:Hk; [discriminate|].
    intros [= <- <-]. rewrite !list_coupons_eq. cbn [fst coupons]. intros [= <-].
    rewrite (dict_set_absent _ _ _ Hk), map_app. reflexivity.
  - intros code0 req v w' l Hr. rewrite !list_coupons_eq. cbn [fst]. intros [= <-].
    apply redeem_success_gates in Hr as (c & Hc & _ & _ & ->).
    unfold after_redeem. cbn [coupons].
    set (c' := mkCouponStored c (id c) _).
    exists (map snd (dict_set (normalize code0) c' (coupons w))), c'.
    split; [reflexivity|]. rewrite !map_map.
    split; [now apply (dict_set_map base _ c)|].
    split; [now apply (dict_set_map id _ c)|].
    split.
    + apply in_map_iff. exists (normalize code0, c'). split; [reflexivity|].
      apply dict_get_In, dict_get_set_eq.
    + split; [apply dict_get_set_eq|]. subst c'. cbn [usage_count].
      rewrite lookup_insert_eq. unfold ledger_count. now rewrite Hc.
Qed.

(** X16.  [login] succeeds for exactly one pair of email and password,
    compared as they are written; every other request is refused with status
    401.  Either way the store, the clock and the identifier source are left
    as they were, and the body of a success carries the demo profile,
    password included. *)
Theorem login_accepts_one_credential_pair (req : LoginRequest) (w : World) :
  (email req = DEMO_USER_EMAIL /\ password req = DEMO_USER_PASSWORD ->
     login req w = (inr (VDict [ ("ok", VBool true); ("user", VDict demo_user) ]), w))
  /\ (~ (email req = DEMO_USER_EMAIL /\ password req = DEMO_USER_PASSWORD) ->
        login req w = (inl (HTTPException 401 "Invalid credentials"), w))
  /\ snd (login req w) = w
  /\ dict_get "password" demo_user = Some (VStr DEMO_USER_PASSWORD).
Proof.
  unfold login.
  destruct (String.eqb_spec (email req) DEMO_USER_EMAIL) as [He|He];
    destruct (String.eqb_spec (password req) DEMO_USER_PASSWORD) as [Hp|Hp];
    cbn [andb]; repeat split; try reflexivity; intros H; try reflexivity; tauto.
Qed.

(** ** Spellings of a code *)

Lemma upper_ascii_idem (a : ascii) : Py.upper_ascii (Py.upper_ascii a) = Py.upper_ascii a.
Proof. destruct a as [[] [] [] [] [] [] [] []]; reflexivity. Qed.

Lemma upper_idem (s : string) : Py.upper (Py.upper s) = Py.upper s.
Proof.
  induction s as [|a s IH]; cbn; [reflexivity|]. now rewrite upper_ascii_idem, IH.
Qed.

Lemma lstrip_upper (s : string) : Py.lstrip (Py.upper s) = Py.upper (Py.lstrip s).
Proof.
  induction s as [|a s IH]; cbn [Py.upper Py.lstrip]; [reflexivity|].
  rewrite upper_ascii_space. destruct (Py.is_space a); [exact IH | reflexivity].
Qed.

Lemma rstrip_upper (s : string) : Py.rstrip (Py.upper s) = Py.upper (Py.rstrip s).
Proof.
  induction s as [|a s IH]; cbn [Py.upper Py.rstrip]; [reflexivity|].
  rewrite IH, upper_ascii_space.
  destruct (Py.rstrip s); cbn [Py.upper]; [destruct (Py.is_space a)|]; reflexivity.
Qed.

Lemma strip_upper (s : string) : Py.strip (Py.upper s) = Py.upper (Py.strip s).
Proof. unfold Py.strip. now rewrite lstrip_upper, rstrip_upper. Qed.

Lemma rstrip_nonempty (s : string) (a : ascii) :
  last_char s = Some a -> Py.is_space a = false -> Py.rstrip s = s.
Proof.
  induction s as [|b s IH]; cbn [last_char Py.rstrip]; [discriminate|].
  destruct s as [|b' s'].
  - intros [= <-] Hb. cbn. now rewrite Hb.
  - intros Hl Ha. rewrite (IH Hl Ha). reflexivity.
Qed.

Lemma last_char_some (s : string) (b : ascii) : exists a, last_char (String b s) = Some a.
Proof.
  revert b. induction s as [|c s IH]; intros b; cbn [last_char]; [now exists b|].
  apply IH.
Qed.

Lemma strip_of_trimmed (s : string) : trimmed s = true -> Py.strip s = s.
Proof.
  unfold trimmed, Py.strip. destruct s as [|b s]; [reflexivity|].
  destruct (last_char_some s b) as [a Ha]. cbn [first_char]. rewrite Ha.
  rewrite andb_true_iff, !negb_true_iff. intros [Hb Hsp].
  cbn [Py.lstrip]. rewrite Hb. now apply (rstrip_nonempty _ a).
Qed.

Lemma append_cons (a : ascii) (l s : string) : String a l +:+ s = String a (l +:+ s).
Proof. reflexivity. Qed.

Lemma append_nil (s : string) : "" +:+ s = s.
Proof. reflexivity. Qed.

Lemma lstrip_all_space (l s : string) :
  all_space l = true -> Py.lstrip (l +:+ s) = Py.lstrip s.
Proof.
  induction l as [|a l IH]; rewrite ?append_cons, ?append_nil;
    cbn [all_space Py.lstrip]; [reflexivity|].
  rewrite andb_true_iff. intros [-> Hl]. now apply IH.
Qed.

Lemma rstrip_all_space_nil (r : string) : all_space r = true -> Py.rstrip r = "".
Proof.
  induction r as [|a r IH]; cbn [all_space Py.rstrip]; [reflexivity|].
  rewrite andb_true_iff. intros [-> Hr]. now rewrite IH.
Qed.

Lemma rstrip_all_space (s r : string) :
  all_space r = true -> Py.rstrip (s +:+ r) = Py.rstrip s.
Proof.
  intros Hr. induction s as [|a s IH]; rewrite ?append_cons, ?append_nil;
    cbn [Py.rstrip].
  - now apply rstrip_all_space_nil.
  - now rewrite IH.
Qed.

Lemma lstrip_app (s r : string) :
  Py.lstrip (s +:+ r)
  = match Py.lstrip s with
    | EmptyString => Py.lstrip r
    | t => t +:+ r
    end.
Proof.
  induction s as [|a s IH]; rewrite ?append_cons, ?append_nil; cbn [Py.lstrip].
  - destruct (Py.lstrip r); reflexivity.
  - destruct (Py.is_space a); [exact IH | reflexivity].
Qed.

Lemma strip_padding (l s r : string) :
  all_space l = true -> all_space r = true ->
  Py.strip (l +:+ s +:+ r) = Py.strip s.
Proof.
  intros Hl Hr. unfold Py.strip. rewrite (lstrip_all_space l _ Hl), lstrip_app.
  destruct (Py.lstrip s) as [|a t] eqn:E.
  - assert (Hall : forall x, all_space x = true -> Py.lstrip x = "").
    { induction x as [|b x IH]; cbn; [reflexivity|].
      rewrite andb_true_iff. intros [-> Hx]. now apply IH. }
    now rewrite (Hall r Hr).
  - now apply rstrip_all_space.
Qed.

(** X17.  Normalizing a code is idempotent and blind to letter case and to
    whitespace around the code.  So once a coupon has been created, a
    [redeem] under any spelling with the same normalized form finds it (it
    never answers NotFound), and creating a coupon under any such spelling is
    refused as a duplicate. *)
Theorem code_spellings (s : string) :
  normalize (normalize s) = normalize s
  /\ normalize (Py.upper s) = normalize s
  /\ (forall l r, all_space l = true -> all_space r = true ->
        normalize (l +:+ s +:+ r) = normalize s)
  /\ (forall body w stored w' code0 req,
        create_coupon body w = (inr stored, w') ->
        code body = s ->
        normalize code0 = normalize s ->
        fst (redeem code0 req w') <> inl not_found
        /\ forall body', code body' = code0 ->
             exists e, create_coupon body' w' = (inl e, w')).
Proof.
  split; [|split; [|split]].
  - unfold normalize at 1 2. rewrite strip_of_trimmed by apply normalize_trimmed.
    unfold normalize. apply upper_idem.
  - unfold normalize. now rewrite strip_upper, upper_idem.
  - intros l r Hl Hr. unfold normalize. now rewrite strip_padding.
  - intros body w stored w' code0 req Hc Hs Hn.
    assert (Hget : dict_get (normalize code0) (coupons w') = Some stored).
    { revert Hc. rewrite create_coupon_unfold. cbn zeta. unfold dict_contains.
      destruct (dict_get (normalize (code body)) (coupons w)); [discriminate|].
      intros [= <- <-]. cbn [coupons]. rewrite Hn, <- Hs. apply dict_get_set_eq. }
    split.
    + rewrite redeem_unfold, Hget.
      repeat (match goal with |- context [if ?b then _ else _] => destruct b end;
              try discriminate).
    + intros body' Hb. rewrite create_coupon_unfold. cbn zeta. unfold dict_contains.
      rewrite Hb, Hget. eexists. reflexivity.
Qed.

(** ** Rounding and the winner *)









(** ** More on the calculator *)

Lemma py_min_mono (a a' b : Q) : (a <= a')%Q -> (Py.min a b <= Py.min a' b)%Q.
Proof.
  intros H.
  destruct (py_min_cases a b) as [[H1 ->] | [H1 ->]];
    destruct (py_min_cases a' b) as [[H2 ->] | [H2 ->]]; lra.
Qed.

(** X19.  For a coupon with [discountValue > 0]: the amount never
    decreases when the cart value grows; a FLAT coupon gives a positive
    amount for every cart of positive value; and [maxDiscountAmount] has no
    effect on a FLAT coupon. *)
Theorem compute_discount_amount_shape (c : CouponStored) :
  (0 < discountValue c)%Q ->
  (forall v1 v2, (v1 <= v2)%Q ->
     (compute_discount_amount c v1 <= compute_discount_amount c v2)%Q)
  /\ (forall v, (0 < v)%Q -> discountType c = FLAT ->
        (0 < compute_discount_amount c v)%Q)
  /\ (forall (c' : CouponStored) v, discountType c = FLAT -> discountType c' = FLAT ->
        discountValue c' = discountValue c ->
        compute_discount_amount c' v = compute_discount_amount c v).
Proof.
  intros Hd.
  assert (Hk : (0 < discountValue c / 100)%Q) by (apply Qlt_shift_div_l; lra).
  unfold compute_discount_amount.
  split; [|split].
  - intros v1 v2 Hv. destruct (discountType c); [now apply py_min_mono|].
    assert (Hraw : (discountValue c / 100 * v1 <= discountValue c / 100 * v2)%Q)
      by now apply Qmult_le_l.
    destruct (maxDiscountAmount c) as [m|]; [now apply py_min_mono | exact Hraw].
  - intros v Hv ->.
    destruct (py_min_cases v (discountValue c)) as [[H ->] | [H ->]]; lra.
  - intros c' v -> -> ->. reflexivity.
Qed.

(** The sample FLAT coupon: a cart of 50 gets at most as much as one of 600. *)
Lemma compute_discount_amount_shape_witness :
  (compute_discount_amount ex_tierless 50 <= compute_discount_amount ex_tierless 600)%Q.
Proof.
  refine (proj1 (compute_discount_amount_shape ex_tierless _) 50%Q 600%Q _).
  - reflexivity.
  - vm_compute. discriminate.
Defined.

(** ** Usage limits over time *)

Lemma run_call_within_limits (call : Call) (w : World) :
  within_limits (coupons w) -> within_limits (coupons (run_call call w)).
Proof.
  intros Hw. destruct call as [body|req|code0 req]; cbn [run_call].
  - unfold post_coupons. destruct (CouponIn_validate body) as [e|c]; [exact Hw|].
    rewrite create_coupon_unfold. cbn zeta. unfold dict_contains.
    destruct (dict_get (normalize (code c)) (coupons w)) eqn:Hk; [exact Hw|].
    cbn [snd coupons]. intros k c0 uid limit Hin Hl.
    apply dict_set_In in Hin as [Hin|[= -> ->]]; [now apply (Hw k)|].
    cbn [usage_count]. rewrite lookup_empty. cbn. lia.
  - rewrite best_coupon_eq. exact Hw.
  - destruct (redeem code0 req w) as [[e|v] w'] eqn:Hr; cbn [snd].
    + intros k c uid limit. rewrite (redeem_failure_keeps_coupons _ _ _ _ _ Hr).
      apply Hw.
    + apply redeem_success_gates in Hr as (c & Hc & Hg & _ & ->).
      apply passes_gates_usage in Hg.
      unfold after_redeem. cbn [coupons]. intros k c0 uid limit Hin Hl.
      apply dict_set_In in Hin as [Hin|[= -> ->]]; [now apply (Hw k)|].
      cbn [usage_count usageLimitPerUser base] in *.
      destruct (decide (userId (user req) = uid)) as [<-|Hne].
      * rewrite lookup_insert_eq. cbn.
        unfold usage_within_limit in Hg. rewrite Hl in Hg.
        apply Z.ltb_lt in Hg. lia.
      * rewrite lookup_insert_ne by assumption.
        apply (Hw (normalize code0)); [now apply dict_get_In | exact Hl].
Qed.

(** X3.  In every world the service reaches from an empty store, no user's
    count on a coupon is above that coupon's [usageLimitPerUser]: a limit [L]
    allows at most [L] redemptions per user, and a limit of 0 or below allows
    none. *)
Theorem usage_limit_never_exceeded (w : World) :
  reachable w ->
  forall k c limit uid,
    dict_get k (coupons w) = Some c ->
    usageLimitPerUser c = Some limit ->
    0 <= ledger_count (coupons w) k uid <= Z.max 0 limit.
Proof.
  intros Hr.
  assert (Hw : within_limits (coupons w)).
  { induction Hr as [w Hw|call w _ IH]; [|now apply run_call_within_limits].
    rewrite Hw. intros ? ? ? ? []. }
  intros k c limit uid Hc Hl.
  pose proof (reachable_store_ok w Hr) as Hok.
  unfold ledger_count. rewrite Hc. split.
  - destruct (usage_count c !! uid) as [n|] eqn:E; cbn; [|lia].
    exact (proj2 (store_ok_In _ _ _ Hok (dict_get_In _ _ _ Hc)) _ _ E).
  - apply (Hw k); [now apply dict_get_In | exact Hl].
Qed.

(** WELCOME100 after two attempts by the same user. *)
Lemma usage_limit_never_exceeded_witness :
  0 <= ledger_count
         (coupons (run [CallRedeem "welcome100" ex_req; CallRedeem "welcome100" ex_req]
                     (ex_welcome_world (fun _ => 5))))
         "WELCOME100" "u1"
  <= Z.max 0 1.
Proof.
  refine (usage_limit_never_exceeded
            (run [CallRedeem "welcome100" ex_req; CallRedeem "welcome100" ex_req]
               (ex_welcome_world (fun _ => 5)))
            _ "WELCOME100" (mkCouponStored ex_welcome "coupon-id" {["u1" := 1]})
            1 "u1" _ _).
  - unfold ex_welcome_world, run. cbn [fold_left].
    do 3 apply reachable_call. now apply reachable_init.
  - vm_compute. reflexivity.
  - reflexivity.
Defined.

(** X20.  When POST /coupons succeeds, the body had [discountValue > 0]
    and [endDate >= startDate] and its normalized code was not yet a key; the
    coupon is stored under the normalized code as it was submitted (the code
    keeps the spelling it came with), with the identifier just drawn and an
    empty ledger; one identifier is drawn and the clock is not read. *)
Theorem post_coupons_success (body : CouponIn) (w w' : World) (stored : CouponStored) :
  post_coupons body w = (inr stored, w') ->
  ((0 < discountValue body)%Q /\ startDate body <= endDate body
   /\ dict_get (normalize (code body)) (coupons w) = None)
  /\ base stored = body
  /\ id stored = uuid_source w (uuid_draws w)
  /\ usage_count stored = ∅
  /\ coupons w' = coupons w ++ [(normalize (code body), stored)]
  /\ dict_get (normalize (code body)) (coupons w') = Some stored
  /\ uuid_draws w' = S (uuid_draws w)
  /\ clock_reads w' = clock_reads w.
Proof.
  unfold post_coupons.
  destruct (CouponIn_validate body) as [e|c] eqn:Hv; [discriminate|].
  apply CouponIn_validate_ok in Hv as (-> & Hd & Hdates).
  rewrite create_coupon_unfold. cbn zeta. unfold dict_contains.
  destruct (dict_get (normalize (code body)) (coupons w)) eqn:Hk; [discriminate|].
  intros [= <- <-]. cbn [base id usage_count coupons uuid_draws clock_reads].
  split; [now repeat split|].
  repeat split; [now apply dict_set_absent | apply dict_get_set_eq].
Qed.

(** WELCOME100 posted to an empty store. *)
Lemma post_coupons_success_witness :
  ((0 < discountValue ex_welcome)%Q /\ startDate ex_welcome <= endDate ex_welcome
   /\ dict_get (normalize (code ex_welcome)) (coupons (ex_world (fun _ => 5))) = None)
  /\ base (ex_stored ex_welcome) = ex_welcome
  /\ id (ex_stored ex_welcome)
     = uuid_source (ex_world (fun _ => 5)) (uuid_draws (ex_world (fun _ => 5)))
  /\ usage_count (ex_stored ex_welcome) = ∅
  /\ coupons (ex_welcome_world (fun _ => 5))
     = coupons (ex_world (fun _ => 5))
       ++ [(normalize (code ex_welcome), ex_stored ex_welcome)]
  /\ dict_get (normalize (code ex_welcome)) (coupons (ex_welcome_world (fun _ => 5)))
     = Some (ex_stored ex_welcome)
  /\ uuid_draws (ex_welcome_world (fun _ => 5)) = S (uuid_draws (ex_world (fun _ => 5)))
  /\ clock_reads (ex_welcome_world (fun _ => 5)) = clock_reads (ex_world (fun _ => 5)).
Proof.
  refine (post_coupons_success ex_welcome (ex_world (fun _ => 5))
            (ex_welcome_world (fun _ => 5)) (ex_stored ex_welcome) _).
  vm_compute. reflexivity.
Defined.
